(** * opencode-coworker: the coworker registry, embedded and verified

    The repository ships the registry twice: [src/index.ts] keeps the
    name -> session table in a JSON file, the second copy of [index.ts]
    (the SQLite one) keeps it in a [coworkers] table.  Both are embedded
    below, each in its own module, next to the small part of JavaScript
    they rely on: strings, [toLowerCase], plain objects used as maps, and
    [Map].

    Modelling choices, all stated where they are made:
    - strings are [string], the bytes of their UTF-8 form; [toLowerCase]
      folds the letters A to Z and leaves every other byte alone, which
      is the source's function on the names whose other characters have
      no lowercase form of their own;
    - a plain object keeps its own properties in creation order and knows
      its prototype; [Object.entries] lists array-index keys first;
    - the JSON file is what [Object.entries (JSON.parse text)] would give,
      the table is its rows in rowid order;
    - the session service is an input (the identifier it hands out) and an
      output (the calls it receives); a call of the service or a write of
      the store that throws is not modelled;
    - a tool call runs from its beginning to its end; two creates that
      overlap at an await are modelled apart, in [Overlap]. *)

From Stdlib Require Import String Ascii List NArith Bool Lia Permutation.
From stdpp Require Import base gmap strings list.

Local Open Scope N_scope.

(** ** JavaScript values used by the plugin *)
Module Js.

(** The characters the template literals need. *)
Definition dquote : string := String "034"%char EmptyString.
Definition newline : string := String "010"%char EmptyString.
(** U+2192 RIGHTWARDS ARROW, in UTF-8. *)
Definition arrow : string :=
  String "226"%char (String "134"%char (String "146"%char EmptyString)).

(** [String.prototype.toLowerCase] as far as it is modelled: the letters
    A-Z are folded and every other byte is left alone.  This is the
    source's function on every string whose characters outside A-Z have
    no lowercase mapping: digits, punctuation, and letters that are
    lowercase already, ASCII or not (U+0131, U+017F, ...).  On other
    cased letters outside ASCII the source folds and this definition does
    not: what is proved below of all names is proved of this fold, and
    the names written out below are names on which the two agree. *)
Definition lower_ascii (c : ascii) : ascii :=
  let n := N_of_ascii c in
  if (65 <=? n) && (n <=? 90) then ascii_of_N (n + 32) else c.

Fixpoint toLowerCase (s : string) : string :=
  match s with
  | EmptyString => EmptyString
  | String c r => String (lower_ascii c) (toLowerCase r)
  end.

(** Canonical array index: the decimal spelling, without leading zero,
    of an integer below 2^32 - 1. *)
Definition digit_of (c : ascii) : option N :=
  let n := N_of_ascii c in
  if (48 <=? n) && (n <=? 57) then Some (n - 48) else None.

Fixpoint digits_value (acc : N) (s : string) : option N :=
  match s with
  | EmptyString => Some acc
  | String c r =>
      match digit_of c with
      | Some d => digits_value (10 * acc + d) r
      | None => None
      end
  end.

Definition array_index (k : string) : option N :=
  match k with
  | EmptyString => None
  | String c r =>
      if Ascii.eqb c "0"%char
      then (match r with EmptyString => Some 0 | _ => None end)
      else match digits_value 0 k with
           | Some n => if n <? 4294967295 then Some n else None
           | None => None
           end
  end.

(** [interface Coworker]; [parentId?: string] is absent or a string. *)
Record Coworker := mkCoworker {
  sessionId : string;
  agentType : string;
  createdAt : string;
  parentId : option string
}.

(** What a property read on a [CoworkerStorage] can yield. *)
Inductive JsVal :=
| JsUndefined
| JsString (s : string)
| JsCoworker (c : Coworker)
| JsObjectPrototype
| JsFunction (name : string).

Definition truthy (v : JsVal) : bool :=
  match v with
  | JsUndefined => false
  | JsString s => negb (String.eqb s EmptyString)
  | _ => true
  end.

(** [v.sessionId] and [v.agentType] for a truthy [v]; [None] is
    [undefined]. *)
Definition get_sessionId (v : JsVal) : option string :=
  match v with JsCoworker c => Some (sessionId c) | _ => None end.

Definition get_agentType (v : JsVal) : option string :=
  match v with JsCoworker c => Some (agentType c) | _ => None end.

(** A value interpolated in a template literal. *)
Definition show (v : option string) : string :=
  match v with Some s => s | None => "undefined"%string end.

(** [x || undefined], [x || null] on an optional string: the empty
    string is falsy. *)
Definition or_absent (v : option string) : option string :=
  match v with
  | Some s => if String.eqb s EmptyString then None else Some s
  | None => None
  end.

(** [interface CoworkerStorage]: a plain object.  [proto = None] is
    [Object.prototype]; own properties are kept in creation order. *)
Record CoworkerStorage := mkStorage {
  proto : option Coworker;
  own : list (string * Coworker)
}.

(** The object literal [{}]. *)
Definition empty_object : CoworkerStorage := mkStorage None [].

Fixpoint own_get (k : string) (l : list (string * Coworker)) : option Coworker :=
  match l with
  | [] => None
  | (k', c) :: r => if String.eqb k k' then Some c else own_get k r
  end.

Fixpoint own_put (k : string) (c : Coworker) (l : list (string * Coworker))
  : list (string * Coworker) :=
  match l with
  | [] => [(k, c)]
  | (k', c') :: r =>
      if String.eqb k k' then (k', c) :: r else (k', c') :: own_put k c r
  end.

(** Own properties of a coworker literal. *)
Definition coworker_get (c : Coworker) (k : string) : option JsVal :=
  if String.eqb k "sessionId" then Some (JsString (sessionId c))
  else if String.eqb k "agentType" then Some (JsString (agentType c))
  else if String.eqb k "createdAt" then Some (JsString (createdAt c))
  else if String.eqb k "parentId" then
    match parentId c with Some p => Some (JsString p) | None => None end
  else None.

(** Properties of [Object.prototype]; [__proto__] is an accessor that
    answers with the prototype of the object the read started from. *)
Definition object_prototype_functions : list string :=
  [ "constructor"; "hasOwnProperty"; "isPrototypeOf";
    "propertyIsEnumerable"; "toLocaleString"; "toString"; "valueOf";
    "__defineGetter__"; "__defineSetter__"; "__lookupGetter__";
    "__lookupSetter__" ]%string.

Definition object_prototype_get (receiver_proto : JsVal) (k : string) : JsVal :=
  if String.eqb k "__proto__" then receiver_proto
  else if existsb (String.eqb k) object_prototype_functions then JsFunction k
  else JsUndefined.

(** [o[k]] *)
Definition get (o : CoworkerStorage) (k : string) : JsVal :=
  match own_get k (own o) with
  | Some c => JsCoworker c
  | None =>
      match proto o with
      | Some p =>
          match coworker_get p k with
          | Some v => v
          | None => object_prototype_get (JsCoworker p) k
          end
      | None => object_prototype_get JsObjectPrototype k
      end
  end.

(** [o[k] = c]: an own property is overwritten in place; otherwise the
    [__proto__] setter replaces the prototype, and any other key
    becomes a new own property. *)
Definition set (o : CoworkerStorage) (k : string) (c : Coworker) : CoworkerStorage :=
  match own_get k (own o) with
  | Some _ => mkStorage (proto o) (own_put k c (own o))
  | None =>
      if String.eqb k "__proto__" then mkStorage (Some c) (own o)
      else mkStorage (proto o) (own o ++ [(k, c)])
  end.

(** [Object.entries o]: array-index keys in ascending order, then the
    other keys in creation order. *)
Fixpoint insert_by_index (n : N) (e : string * Coworker)
    (l : list (N * (string * Coworker))) : list (N * (string * Coworker)) :=
  match l with
  | [] => [(n, e)]
  | (m, e') :: r =>
      if n <? m then (n, e) :: l else (m, e') :: insert_by_index n e r
  end.

Fixpoint index_entries (l : list (string * Coworker))
  : list (N * (string * Coworker)) :=
  match l with
  | [] => []
  | e :: r =>
      match array_index (fst e) with
      | Some n => insert_by_index n e (index_entries r)
      | None => index_entries r
      end
  end.

Fixpoint named_entries (l : list (string * Coworker)) : list (string * Coworker) :=
  match l with
  | [] => []
  | e :: r =>
      match array_index (fst e) with
      | Some _ => named_entries r
      | None => e :: named_entries r
      end
  end.

Definition entries (o : CoworkerStorage) : list (string * Coworker) :=
  map snd (index_entries (own o)) ++ named_entries (own o).

(** [lines.join("\n")] *)
Definition join (lines : list string) : string := String.concat newline lines.

End Js.

(** ** What the host passes in and what the tools answer *)
Module Host.

(** [toolCtx]: only [sessionID] is read. *)
Record ToolContext := mkToolContext { sessionID : string }.

(** Calls made on [client.session]. *)
Inductive Call :=
| SessionCreate (parentID : option string) (title : string)
| SessionPrompt (id : option string) (text : string) (agent : option string).

(** What the environment supplies during one tool call:
    [result.data?.id] of [client.session.create], and
    [new Date().toISOString()]. *)
Record Service := mkService { created_id : option string; clock : string }.

(** Every [return] of a tool is labelled with the outcome it reports;
    the text is the one the source builds. *)
Inductive Kind := Done | AlreadyExists | UpstreamFailure | NotFound.

Inductive Outcome :=
| Threw
| Returned (kind : Kind) (text : string).

(** [Map.prototype.has], [Map.prototype.delete] with a key that may be
    [undefined]: the maps only ever hold string keys. *)
Definition has (m : gmap string string) (k : string) : bool :=
  bool_decide (is_Some (m !! k)).

Definition map_delete (k : option string) (m : gmap string string) : gmap string string :=
  match k with Some s => delete s m | None => m end.

(** One line of [list_coworkers]. *)
Definition list_line (activeSessions : gmap string string)
    (e : string * Js.Coworker) : string :=
  let status := if has activeSessions (Js.sessionId (snd e)) then "active" else "idle" in
  fst e +:+ " (" +:+ Js.agentType (snd e) +:+ ") " +:+ Js.arrow +:+ " "
    +:+ Js.sessionId (snd e) +:+ " [" +:+ status +:+ "]".

End Host.

(** ** [src/index.ts]: the table lives in [coworkers.json] *)
Module FileVariant.
Import Js Host.

(** The file at [storageFile].  [FileJson es]: the file parses to an
    object whose [Object.entries] is [es].  [FileUnreadable]: reading,
    parsing or enumerating it throws. *)
Inductive FileState :=
| FileMissing
| FileUnreadable
| FileJson (data : list (string * Coworker)).

Record State := mkState {
  storageFile : FileState;
  activeSessions : gmap string string;
  sessionParents : gmap string string
}.

Record Run := mkRun { outcome : Outcome; after : State; calls : list Call }.

Definition initial (f : FileState) : State := mkState f ∅ ∅.

Definition loadCoworkers (f : FileState) : CoworkerStorage :=
  match f with
  | FileJson data =>
      fold_left (fun normalized e => set normalized (toLowerCase (fst e)) (snd e))
                data empty_object
  | FileMissing | FileUnreadable => empty_object
  end.

(** [JSON.stringify] writes the own properties in [Object.entries]
    order; [writeFileSync] is taken to succeed. *)
Definition saveCoworkers (coworkers : CoworkerStorage) : FileState :=
  FileJson (entries coworkers).

Definition createCoworkerTool (args_name : string) (args_agent_type : option string)
    (args_prompt : string) (toolCtx : ToolContext) (svc : Service) (st : State) : Run :=
  let coworkers := loadCoworkers (storageFile st) in
  let name := toLowerCase args_name in
  let agent := default "code"%string args_agent_type in
  if truthy (get coworkers name) then
    mkRun (Returned AlreadyExists
             ("Error: Coworker " +:+ dquote +:+ name +:+ dquote
                +:+ " already exists with session "
                +:+ show (get_sessionId (get coworkers name))))
          st []
  else
    let create_call :=
      SessionCreate (Some (sessionID toolCtx)) (args_name +:+ " (" +:+ agent +:+ ")") in
    match or_absent (created_id svc) with
    | None =>
        mkRun (Returned UpstreamFailure "Error: Failed to create session")
              st [create_call]
    | Some sessionId =>
        let prompt_call := SessionPrompt (Some sessionId) args_prompt (Some agent) in
        let coworkers' :=
          set coworkers name
              (mkCoworker sessionId agent (clock svc) (Some (sessionID toolCtx))) in
        mkRun (Returned Done
                 ("Created coworker " +:+ dquote +:+ name +:+ dquote +:+ " ("
                    +:+ agent +:+ ") with session " +:+ sessionId))
              (mkState (saveCoworkers coworkers')
                       (<[sessionId := name]> (activeSessions st))
                       (<[sessionId := sessionID toolCtx]> (sessionParents st)))
              [create_call; prompt_call]
    end.

Definition listCoworkersTool (st : State) : Run :=
  let coworkers := loadCoworkers (storageFile st) in
  match entries coworkers with
  | [] => mkRun (Returned Done "No coworkers found") st []
  | es => mkRun (Returned Done (join (map (list_line (activeSessions st)) es))) st []
  end.

Definition tellCoworkerTool (args_name args_message : string) (st : State) : Run :=
  let coworkers := loadCoworkers (storageFile st) in
  let name := toLowerCase args_name in
  let coworker := get coworkers name in
  if negb (truthy coworker) then
    mkRun (Returned NotFound
             ("Error: Coworker " +:+ dquote +:+ name +:+ dquote
                +:+ " not found. Use list_coworkers to see available coworkers."))
          st []
  else
    mkRun (Returned Done
             ("Queued message to " +:+ dquote +:+ name +:+ dquote +:+ " ("
                +:+ show (get_agentType coworker) +:+ ")"))
          st [SessionPrompt (get_sessionId coworker) args_message None].

(** The tools this variant registers. *)
Inductive Op :=
| create_coworker (args_name : string) (args_agent_type : option string)
    (args_prompt : string) (toolCtx : ToolContext) (svc : Service)
| list_coworkers
| tell_coworker (args_name args_message : string).

Definition exec (op : Op) (st : State) : Run :=
  match op with
  | create_coworker n a p ctx svc => createCoworkerTool n a p ctx svc st
  | list_coworkers => listCoworkersTool st
  | tell_coworker n m => tellCoworkerTool n m st
  end.

Definition run (ops : list Op) (st : State) : State :=
  fold_left (fun s op => after (exec op s)) ops st.

End FileVariant.

(** ** The SQLite copy of [index.ts]: the table lives in [coworkers.db] *)
Module TableVariant.
Import Js Host.

(** A row of [coworkers]. *)
Record Row := mkRow {
  name : string;
  session_id : string;
  agent_type : string;
  created_at : string;
  parent_id : option string
}.

(** The database file.  [DbTable rows]: the rows of [coworkers] in rowid
    order, [name] being the primary key.  [DbUnusable]: opening or
    querying the file throws. *)
Inductive DbState :=
| DbMissing
| DbUnusable
| DbTable (rows : list Row).

Record State := mkState {
  db : DbState;
  activeSessions : gmap string string;
  sessionParents : gmap string string
}.

Record Run := mkRun { outcome : Outcome; after : State; calls : list Call }.

Definition initial (d : DbState) : State := mkState d ∅ ∅.

(** [new Database(dbPath)] creates the file when there is none, and
    [CREATE TABLE IF NOT EXISTS] the table; [None] when it throws. *)
Definition getDb (d : DbState) : option (list Row) :=
  match d with
  | DbMissing => Some []
  | DbUnusable => None
  | DbTable rows => Some rows
  end.

Definition coworker_of_row (row : Row) : Coworker :=
  mkCoworker (session_id row) (agent_type row) (created_at row)
             (or_absent (parent_id row)).

(** The loop of [loadCoworkers] over the rows of [SELECT *]. *)
Definition normalize_rows (rows : list Row) : CoworkerStorage :=
  fold_left (fun normalized row =>
               set normalized (toLowerCase (name row)) (coworker_of_row row))
            rows empty_object.

Definition loadCoworkers (d : DbState) : option CoworkerStorage :=
  match getDb d with
  | Some rows => Some (normalize_rows rows)
  | None => None
  end.

(** [INSERT OR REPLACE]: the row holding the key is deleted, the new
    row gets the next rowid. *)
Definition insert_or_replace (r : Row) (rows : list Row) : list Row :=
  filter (fun x => name x <> name r) rows ++ [r].

Definition row_of_entry (e : string * Coworker) : Row :=
  mkRow (toLowerCase (fst e)) (sessionId (snd e)) (agentType (snd e))
        (createdAt (snd e)) (or_absent (parentId (snd e))).

Definition saveCoworkers (rows : list Row) (coworkers : CoworkerStorage) : list Row :=
  fold_left (fun t e => insert_or_replace (row_of_entry e) t) (entries coworkers) rows.

(** [DELETE FROM coworkers WHERE name = ?] *)
Definition delete_row (k : string) (rows : list Row) : list Row :=
  filter (fun x => name x <> k) rows.

Definition createCoworkerTool (args_name : string) (args_agent_type : option string)
    (args_prompt : string) (toolCtx : ToolContext) (svc : Service) (st : State) : Run :=
  match getDb (db st) with
  | None => mkRun Threw st []
  | Some rows =>
      let st := mkState (DbTable rows) (activeSessions st) (sessionParents st) in
      let coworkers := normalize_rows rows in
      let name := toLowerCase args_name in
      let agent := default "general"%string args_agent_type in
      if truthy (get coworkers name) then
        mkRun (Returned AlreadyExists
                 ("Error: Coworker " +:+ dquote +:+ name +:+ dquote
                    +:+ " already exists with session "
                    +:+ show (get_sessionId (get coworkers name))))
              st []
      else
        let create_call := SessionCreate None (args_name +:+ " (" +:+ agent +:+ ")") in
        match or_absent (created_id svc) with
        | None =>
            mkRun (Returned UpstreamFailure "Error: Failed to create session")
                  st [create_call]
        | Some sessionId =>
            let modifiedPrompt :=
              "IMPORTANT: your name is '" +:+ args_name +:+ "'. " +:+ args_prompt in
            let prompt_call := SessionPrompt (Some sessionId) modifiedPrompt (Some agent) in
            let coworkers' :=
              set coworkers name
                  (mkCoworker sessionId agent (clock svc) (Some (sessionID toolCtx))) in
            mkRun (Returned Done
                     ("Created coworker " +:+ dquote +:+ name +:+ dquote +:+ " ("
                        +:+ agent +:+ ") with session " +:+ sessionId))
                  (mkState (DbTable (saveCoworkers rows coworkers'))
                           (<[sessionId := name]> (activeSessions st))
                           (<[sessionId := sessionID toolCtx]> (sessionParents st)))
                  [create_call; prompt_call]
        end
  end.

Definition listCoworkersTool (st : State) : Run :=
  match getDb (db st) with
  | None => mkRun Threw st []
  | Some rows =>
      let st := mkState (DbTable rows) (activeSessions st) (sessionParents st) in
      match entries (normalize_rows rows) with
      | [] => mkRun (Returned Done "No coworkers found") st []
      | es => mkRun (Returned Done (join (map (list_line (activeSessions st)) es))) st []
      end
  end.

Definition tellCoworkerTool (args_name args_message : string) (st : State) : Run :=
  match getDb (db st) with
  | None => mkRun Threw st []
  | Some rows =>
      let st := mkState (DbTable rows) (activeSessions st) (sessionParents st) in
      let name := toLowerCase args_name in
      let coworker := get (normalize_rows rows) name in
      if negb (truthy coworker) then
        mkRun (Returned NotFound
                 ("Error: Coworker " +:+ dquote +:+ name +:+ dquote
                    +:+ " not found. Use list_coworkers to see available coworkers."))
              st []
      else
        mkRun (Returned Done
                 ("Queued message to " +:+ dquote +:+ name +:+ dquote +:+ " ("
                    +:+ show (get_agentType coworker) +:+ ")"))
              st [SessionPrompt (get_sessionId coworker) args_message None]
  end.

Definition removeCoworkerTool (args_name : string) (st : State) : Run :=
  match getDb (db st) with
  | None => mkRun Threw st []
  | Some rows =>
      let st := mkState (DbTable rows) (activeSessions st) (sessionParents st) in
      let name := toLowerCase args_name in
      let coworker := get (normalize_rows rows) name in
      if negb (truthy coworker) then
        mkRun (Returned NotFound
                 ("Error: Coworker " +:+ dquote +:+ name +:+ dquote
                    +:+ " not found. Use list_coworkers to see available coworkers."))
              st []
      else
        mkRun (Returned Done
                 ("Removed coworker " +:+ dquote +:+ name +:+ dquote +:+ " ("
                    +:+ show (get_agentType coworker) +:+ ")"))
              (mkState (DbTable (delete_row name rows))
                       (map_delete (get_sessionId coworker) (activeSessions st))
                       (map_delete (get_sessionId coworker) (sessionParents st)))
              []
  end.

(** The tools this variant registers. *)
Inductive Op :=
| create_coworker (args_name : string) (args_agent_type : option string)
    (args_prompt : string) (toolCtx : ToolContext) (svc : Service)
| list_coworkers
| tell_coworker (args_name args_message : string)
| remove_coworker (args_name : string).

Definition exec (op : Op) (st : State) : Run :=
  match op with
  | create_coworker n a p ctx svc => createCoworkerTool n a p ctx svc st
  | list_coworkers => listCoworkersTool st
  | tell_coworker n m => tellCoworkerTool n m st
  | remove_coworker n => removeCoworkerTool n st
  end.

Definition run (ops : list Op) (st : State) : State :=
  fold_left (fun s op => after (exec op s)) ops st.

End TableVariant.

(** ** The vocabulary of the registry's properties *)
Module Registry.
Import Js Host.

(** Two display names differ only in the case of ASCII letters: same
    length and, at each position, the same character or the two cases of
    one of the letters A-Z. *)
Definition is_upper (c : ascii) : bool :=
  let n := N_of_ascii c in (65 <=? n) && (n <=? 90).

Definition case_variant (a b : ascii) : Prop :=
  a = b \/ (is_upper a = true /\ b = lower_ascii a)
        \/ (is_upper b = true /\ a = lower_ascii b).

Inductive differ_only_in_ascii_case : string -> string -> Prop :=
| same_end : differ_only_in_ascii_case EmptyString EmptyString
| same_char a b s t :
    case_variant a b -> differ_only_in_ascii_case s t ->
    differ_only_in_ascii_case (String a s) (String b t).

(** A run of assignments [o[k] = c]; both [loadCoworkers] loops are such
    runs. *)
Definition assign_all (kvs : list (string * Coworker)) (o : CoworkerStorage)
  : CoworkerStorage :=
  fold_left (fun acc e => set acc (fst e) (snd e)) kvs o.

(** A record as the table gives it back: an empty [parentId] is lost. *)
Definition stored (c : Coworker) : Coworker :=
  mkCoworker (sessionId c) (agentType c) (createdAt c) (or_absent (parentId c)).

(** The keys the registry stores under: normalized names, [__proto__]
    apart, which no create can store. *)
Definition registry_key (k : string) : Prop :=
  toLowerCase k = k /\ k <> "__proto__"%string.

Definition registry_keys (l : list (string * Coworker)) : Prop :=
  NoDup (map fst l) /\ Forall registry_key (map fst l).

(** The records a store holds, keyed as stored. *)
Definition file_records (f : FileVariant.FileState) : list (string * Coworker) :=
  match f with
  | FileVariant.FileJson data => data
  | FileVariant.FileMissing | FileVariant.FileUnreadable => []
  end.

Definition table_records (rows : list TableVariant.Row) : list (string * Coworker) :=
  map (fun r => (TableVariant.name r, TableVariant.coworker_of_row r)) rows.

(** The JSON file and the table hold the same records: the file is
    readable, its keys are registry keys, no [parentId] is the empty
    string, and the rows are its entries, in order. *)
Definition same_records (f : FileVariant.FileState) (rows : list TableVariant.Row)
  : Prop :=
  f <> FileVariant.FileUnreadable /\
  registry_keys (file_records f) /\
  Forall (fun e => stored (snd e) = snd e) (file_records f) /\
  rows = map TableVariant.row_of_entry (file_records f).

(** Two states, one of each variant, that a caller cannot tell apart. *)
Definition agree (sf : FileVariant.State) (st : TableVariant.State) : Prop :=
  (exists rows, TableVariant.getDb (TableVariant.db st) = Some rows /\
                same_records (FileVariant.storageFile sf) rows) /\
  FileVariant.activeSessions sf = TableVariant.activeSessions st /\
  FileVariant.sessionParents sf = TableVariant.sessionParents st.
End Registry.


(** ** Concrete calls, used to run the tools *)
Module Sample.
Import Js Host.

Definition caller : ToolContext := mkToolContext "ses_caller".
Definition first_session : Service :=
  mkService (Some "ses_1"%string) "2026-01-01T00:00:00.000Z".
Definition second_session : Service :=
  mkService (Some "ses_2"%string) "2026-01-02T00:00:00.000Z".
Definition no_session : Service := mkService None "2026-01-03T00:00:00.000Z".

Definition bob : Coworker :=
  mkCoworker "ses_1" "code" "2026-01-01T00:00:00.000Z" (Some "ses_caller"%string).
Definition alice_row : TableVariant.Row :=
  TableVariant.mkRow "alice" "ses_0" "general" "2025-12-31T00:00:00.000Z" None.
End Sample.

(** ** The [/coworkers] command *)
Module Command.
Import Js Host.

(** U+2022 BULLET, in UTF-8. *)
Definition bullet : string :=
  String "226"%char (String "128"%char (String "162"%char EmptyString)).

(** One line of the command's listing. *)
Definition command_line (activeSessions : gmap string string)
    (e : string * Coworker) : string :=
  let status := if has activeSessions (sessionId (snd e)) then "active" else "idle" in
  bullet +:+ " " +:+ fst e +:+ " (" +:+ agentType (snd e) +:+ ") " +:+ arrow +:+ " "
    +:+ sessionId (snd e) +:+ " [" +:+ status +:+ "]".

(** The [text] of the object the command returns, from the loaded
    mapping. *)
Definition command_text (activeSessions : gmap string string)
    (coworkers : CoworkerStorage) : string :=
  match entries coworkers with
  | [] => "No coworkers found"
  | es => "**Coworkers:**" +:+ newline +:+ join (map (command_line activeSessions) es)
  end.

(** [command.coworkers.execute] of [src/index.ts]. *)
Definition file_coworkers (st : FileVariant.State) : FileVariant.Run :=
  let coworkers := FileVariant.loadCoworkers (FileVariant.storageFile st) in
  FileVariant.mkRun
    (Returned Done (command_text (FileVariant.activeSessions st) coworkers)) st [].

(** [command.coworkers.execute] of the SQLite variant. *)
Definition table_coworkers (st : TableVariant.State) : TableVariant.Run :=
  match TableVariant.getDb (TableVariant.db st) with
  | None => TableVariant.mkRun Threw st []
  | Some rows =>
      let st := TableVariant.mkState (TableVariant.DbTable rows)
                  (TableVariant.activeSessions st) (TableVariant.sessionParents st) in
      TableVariant.mkRun
        (Returned Done (command_text (TableVariant.activeSessions st)
                                     (TableVariant.normalize_rows rows)))
        st []
  end.

End Command.

(** ** The [config] hook *)
Module ConfigHook.

(** [interface ServerConfig]: the two fields the hook reads, each of
    which may be missing, and the other keys, whose values are of no
    concern ([unknown]). *)
Record Experimental (U : Type) := mkExperimental {
  primary_tools : option (list string);
  experimental_rest : list (string * U)
}.
Arguments mkExperimental {U}.
Arguments primary_tools {U}.
Arguments experimental_rest {U}.

Record ServerConfig (U : Type) := mkServerConfig {
  experimental : option (Experimental U);
  config_rest : list (string * U)
}.
Arguments mkServerConfig {U}.
Arguments experimental {U}.
Arguments config_rest {U}.

(** [input.experimental ??= {}; input.experimental.primary_tools ??= [];
    input.experimental.primary_tools.push(...names)]; the result is the
    object [input] has become. *)
Definition push_primary_tools {U} (names : list string) (input : ServerConfig U)
  : ServerConfig U :=
  let e := match experimental input with
           | Some e => e
           | None => mkExperimental None []
           end in
  let tools := match primary_tools e with
               | Some tools => tools
               | None => []
               end in
  mkServerConfig
    (Some (mkExperimental (Some (tools ++ names)) (experimental_rest e)))
    (config_rest input).

(** The keys of the [tool] object each variant returns, and its hook. *)
Definition file_tools : list string :=
  ["create_coworker"; "list_coworkers"; "tell_coworker"]%string.

Definition table_tools : list string :=
  ["create_coworker"; "list_coworkers"; "tell_coworker"; "remove_coworker"]%string.

Definition file_config {U} (input : ServerConfig U) : ServerConfig U :=
  push_primary_tools
    ["create_coworker"; "list_coworkers"; "tell_coworker"]%string input.

Definition table_config {U} (input : ServerConfig U) : ServerConfig U :=
  push_primary_tools
    ["create_coworker"; "list_coworkers"; "tell_coworker"; "remove_coworker"]%string
    input.

End ConfigHook.

(** ** [getStorageFile] *)
Module StoragePath.
Import Js.

(** [getStorageFile] with the module variable [storageFile] passed in and
    out.  [response] is [result.data?.config] of [client.path.get()];
    without [data] the read of [.config] throws and the variable keeps
    its value.  [path.join] is Node's and is taken as a parameter.  The
    result is what the call returns ([None]: it throws) and the variable
    afterwards. *)
Definition getStorageFile (path_join : string -> string -> string)
    (storageFile : option string) (response : option string)
  : option string * option string :=
  match or_absent storageFile with
  | Some file => (Some file, storageFile)
  | None =>
      match response with
      | None => (None, storageFile)
      | Some config =>
          let file := path_join config "coworkers.json" in
          (Some file, Some file)
      end
  end.

(** A sequence of calls, each with the answer the host gives it; the
    results of all calls and the variable at the end. *)
Fixpoint getStorageFile_calls (path_join : string -> string -> string)
    (storageFile : option string) (responses : list (option string))
  : list (option string) * option string :=
  match responses with
  | [] => ([], storageFile)
  | r :: rest =>
      let '(result, storageFile') := getStorageFile path_join storageFile r in
      let '(results, final) := getStorageFile_calls path_join storageFile' rest in
      (result :: results, final)
  end.

End StoragePath.

(** ** Tool calls that overlap *)
Module Overlap.
Import Js Host.

(** The tools are [async]: between the [await] that loads the mapping
    and the one that saves it, [create_coworker] awaits the session
    service twice, and another tool call can run.  The two ends of
    [createCoworkerTool.execute] are given here on their own: the load and
    the check of the name, and what follows the first prompt. *)

(** [src/index.ts], lines 95-100: the mapping to go on with, or the
    early return. *)
Definition file_create_begin (args_name : string) (st : FileVariant.State)
  : CoworkerStorage + FileVariant.Run :=
  let coworkers := FileVariant.loadCoworkers (FileVariant.storageFile st) in
  let name := toLowerCase args_name in
  if truthy (get coworkers name) then
    inr (FileVariant.mkRun
           (Returned AlreadyExists
              ("Error: Coworker " +:+ dquote +:+ name +:+ dquote
                 +:+ " already exists with session "
                 +:+ show (get_sessionId (get coworkers name))))
           st [])
  else inl coworkers.

(** [src/index.ts], lines 122-133, run on the state of that moment with
    the mapping loaded earlier. *)
Definition file_create_end (coworkers : CoworkerStorage) (args_name : string)
    (args_agent_type : option string) (toolCtx : ToolContext) (svc : Service)
    (sessionId : string) (st : FileVariant.State) : FileVariant.Run :=
  let name := toLowerCase args_name in
  let agent := default "code"%string args_agent_type in
  let coworkers' :=
    set coworkers name
        (mkCoworker sessionId agent (clock svc) (Some (sessionID toolCtx))) in
  FileVariant.mkRun
    (Returned Done
       ("Created coworker " +:+ dquote +:+ name +:+ dquote +:+ " ("
          +:+ agent +:+ ") with session " +:+ sessionId))
    (FileVariant.mkState (FileVariant.saveCoworkers coworkers')
       (<[sessionId := name]> (FileVariant.activeSessions st))
       (<[sessionId := sessionID toolCtx]> (FileVariant.sessionParents st)))
    [].

(** The same two ends of the SQLite variant (lines 198-203 and 225-236
    of its [index.ts]); the database is open by then. *)
Definition table_create_begin (args_name : string) (rows : list TableVariant.Row)
  : CoworkerStorage + (Kind * string) :=
  let coworkers := TableVariant.normalize_rows rows in
  let name := toLowerCase args_name in
  if truthy (get coworkers name) then
    inr (AlreadyExists,
         "Error: Coworker " +:+ dquote +:+ name +:+ dquote
           +:+ " already exists with session "
           +:+ show (get_sessionId (get coworkers name)))
  else inl coworkers.

Definition table_create_end (coworkers : CoworkerStorage) (args_name : string)
    (args_agent_type : option string) (toolCtx : ToolContext) (svc : Service)
    (sessionId : string) (st : TableVariant.State) : TableVariant.Run :=
  match TableVariant.getDb (TableVariant.db st) with
  | None => TableVariant.mkRun Threw st []
  | Some rows =>
      let name := toLowerCase args_name in
      let agent := default "general"%string args_agent_type in
      let coworkers' :=
        set coworkers name
            (mkCoworker sessionId agent (clock svc) (Some (sessionID toolCtx))) in
      TableVariant.mkRun
        (Returned Done
           ("Created coworker " +:+ dquote +:+ name +:+ dquote +:+ " ("
              +:+ agent +:+ ") with session " +:+ sessionId))
        (TableVariant.mkState
           (TableVariant.DbTable (TableVariant.saveCoworkers rows coworkers'))
           (<[sessionId := name]> (TableVariant.activeSessions st))
           (<[sessionId := sessionID toolCtx]> (TableVariant.sessionParents st)))
        []
  end.

End Overlap.

(** ** Spellings of a name in the store *)
Module Spelling.
Import Js.

(** The record of the last entry, in store order, whose key normalizes to
    [k]. *)
Fixpoint last_spelled (k : string) (data : list (string * Coworker)) : option Coworker :=
  match data with
  | [] => None
  | e :: rest =>
      match last_spelled k rest with
      | Some c => Some c
      | None => if String.eqb k (toLowerCase (fst e)) then Some (snd e) else None
      end
  end.

End Spelling.

(** ** The text of a listing, said on its own *)
Module Listing.
Import Js.

(** Lines, one after the other, with a line feed between two of them and
    none at the end. *)
Fixpoint newline_separated (lines : list string) : string :=
  match lines with
  | [] => EmptyString
  | line :: rest =>
      match rest with
      | [] => line
      | _ :: _ => line +:+ String "010"%char (newline_separated rest)
      end
  end.

(** The line of a coworker: [name (agentType) -> sessionId [tag]], the
    arrow being U+2192 (bytes E2 86 92). *)
Definition line (name agentType sessionId tag : string) : string :=
  name +:+ " (" +:+ agentType +:+ ") "
    +:+ String "226"%char (String "134"%char (String "146"%char " "))
    +:+ sessionId +:+ " [" +:+ tag +:+ "]".

(** The line owed to a stored record, given the liveness map. *)
Definition line_of (live : gmap string string) (e : string * Coworker) : string :=
  line (fst e) (agentType (snd e)) (sessionId (snd e))
       (if decide (sessionId (snd e) ∈ dom live) then "active" else "idle").

(** The same line as the [/coworkers] command shows it: after a bullet
    (U+2022, bytes E2 80 A2) and a space. *)
Definition bulleted (l : string) : string :=
  String "226"%char (String "128"%char (String "162"%char (String " "%char l))).

End Listing.

(** ** Names outside ASCII *)
Module Names.

(** U+0131 LATIN SMALL LETTER DOTLESS I, in UTF-8.  It is a lowercase
    letter, [toLowerCase] leaves it as it is (the source's and the one
    above), and its uppercase is the letter I. *)
Definition dotless_i : string := String "196"%char (String "177"%char EmptyString).

(** A name in lowercase, and the same name in uppercase
    ([irmak.toUpperCase()] in the source's language). *)
Definition irmak : string := dotless_i +:+ "rmak".
Definition IRMAK : string := "IRMAK".

End Names.

(** * Properties *)

Import Js Host Registry.

(** *** Names *)

Lemma lower_ascii_idem c : lower_ascii (lower_ascii c) = lower_ascii c.
Proof. destruct c as [[] [] [] [] [] [] [] []]; reflexivity. Qed.

Lemma toLowerCase_idem s : toLowerCase (toLowerCase s) = toLowerCase s.
Proof. induction s as [|c s IH]; simpl; [done|]. by rewrite lower_ascii_idem, IH. Qed.

Lemma case_variant_lower a b : case_variant a b -> lower_ascii a = lower_ascii b.
Proof.
  intros [->|[[_ ->]|[_ ->]]]; [done| |]; by rewrite lower_ascii_idem.
Qed.

Lemma differ_only_in_ascii_case_lower s t :
  differ_only_in_ascii_case s t -> toLowerCase s = toLowerCase t.
Proof.
  induction 1 as [|a b s t Hab _ IH]; simpl; [done|].
  by rewrite (case_variant_lower a b Hab), IH.
Qed.

(** *** Own properties *)

Lemma own_get_app k l l' :
  own_get k (l ++ l') = match own_get k l with Some c => Some c | None => own_get k l' end.
Proof.
  induction l as [|[k' c] l IH]; simpl; [done|]. by destruct (String.eqb k k').
Qed.

Lemma own_put_app k c l :
  own_get k l = None -> own_put k c l = l ++ [(k, c)].
Proof.
  induction l as [|[k' c'] l IH]; simpl; [done|].
  destruct (String.eqb k k'); [done|]. intros H. by rewrite IH.
Qed.

Lemma own_get_put k k' c l :
  own_get k (own_put k' c l) = if String.eqb k k' then Some c else own_get k l.
Proof.
  induction l as [|[k0 c0] l IH]; simpl.
  - by destruct (String.eqb k k').
  - destruct (String.eqb_spec k' k0) as [->|Hne]; simpl.
    + by destruct (String.eqb k k0).
    + rewrite IH. destruct (String.eqb_spec k k0) as [->|]; [|done].
      destruct (String.eqb_spec k0 k'); [congruence|done].
Qed.

Lemma own_get_set k k' c o :
  k <> "__proto__"%string ->
  own_get k (own (set o k' c)) = if String.eqb k k' then Some c else own_get k (own o).
Proof.
  intros Hk. unfold set. destruct (own_get k' (own o)) eqn:E; simpl.
  - apply own_get_put.
  - destruct (String.eqb_spec k' "__proto__") as [->|Hne]; simpl.
    + destruct (String.eqb_spec k "__proto__"); [done|done].
    + rewrite own_get_app. simpl. destruct (String.eqb_spec k k') as [->|].
      * by rewrite E.
      * by destruct (own_get k (own o)).
Qed.

(** *** [Object.entries] lists every own property once *)

Lemma insert_by_index_perm n e l :
  Permutation (map snd (insert_by_index n e l)) (e :: map snd l).
Proof.
  induction l as [|[m e'] l IH]; simpl; [done|].
  destruct (n <? m); simpl; [done|].
  rewrite IH. apply perm_swap.
Qed.

Lemma entries_perm o : Permutation (entries o) (own o).
Proof.
  unfold entries. induction (own o) as [|e l IH]; simpl; [done|].
  destruct (array_index (fst e)).
  - rewrite insert_by_index_perm. simpl. by apply perm_skip.
  - rewrite <- Permutation_middle. by apply perm_skip.
Qed.

(** *** Lookup in a list of properties with distinct keys *)

Lemma own_get_Some_elem k c l : own_get k l = Some c -> (k, c) ∈ l.
Proof.
  induction l as [|[k' c'] l IH]; simpl; [done|].
  destruct (String.eqb_spec k k') as [->|]; [intros [= ->]; by left|].
  intros H. right. by apply IH.
Qed.

Lemma own_get_None_keys k l : own_get k l = None <-> k ∉ map fst l.
Proof.
  induction l as [|[k' c'] l IH]; simpl; [rewrite elem_of_nil; tauto|].
  rewrite elem_of_cons.
  destruct (String.eqb_spec k k') as [->|]; [|rewrite IH]; intuition congruence.
Qed.

Lemma elem_own_get k c l : NoDup (map fst l) -> (k, c) ∈ l -> own_get k l = Some c.
Proof.
  induction l as [|[k' c'] l IH]; simpl; [by rewrite elem_of_nil|].
  rewrite NoDup_cons, elem_of_cons. intros [Hnot Hnd] [[= -> ->]|Hin].
  - by rewrite String.eqb_refl.
  - destruct (String.eqb_spec k k') as [->|]; [|by apply IH].
    exfalso. apply Hnot. by apply (list_elem_of_fmap_2 fst) in Hin.
Qed.

Lemma own_get_perm k l l' :
  NoDup (map fst l) -> Permutation l l' -> own_get k l = own_get k l'.
Proof.
  intros Hnd Hp.
  assert (Hnd' : NoDup (map fst l')) by (by rewrite <- Hp).
  destruct (own_get k l) as [c|] eqn:E.
  - symmetry. apply elem_own_get; [done|].
    rewrite <- Hp. by apply own_get_Some_elem.
  - symmetry. apply own_get_None_keys. apply own_get_None_keys in E.
    by rewrite <- Hp.
Qed.

(** *** Assignments to a storage object *)

Lemma own_put_keys k c l : map fst (own_put k c l) = 
  match own_get k l with Some _ => map fst l | None => map fst l ++ [k] end.
Proof.
  induction l as [|[k' c'] l IH]; simpl; [done|].
  destruct (String.eqb_spec k k') as [->|]; simpl; [done|].
  rewrite IH. by destruct (own_get k l).
Qed.

Lemma set_fresh o k c :
  own_get k (own o) = None -> k <> "__proto__"%string ->
  set o k c = mkStorage (proto o) (own o ++ [(k, c)]).
Proof.
  intros E Hk. unfold set. rewrite E.
  by destruct (String.eqb_spec k "__proto__").
Qed.

Lemma set_keys o k c :
  map fst (own (set o k c)) =
  match own_get k (own o) with
  | Some _ => map fst (own o)
  | None => if String.eqb k "__proto__" then map fst (own o) else map fst (own o) ++ [k]
  end.
Proof.
  unfold set. destruct (own_get k (own o)) eqn:E; simpl.
  - by rewrite own_put_keys, E.
  - destruct (String.eqb k "__proto__"); simpl; [done|]. by rewrite map_app.
Qed.

Lemma set_keys_NoDup o k c :
  NoDup (map fst (own o)) -> NoDup (map fst (own (set o k c))).
Proof.
  intros Hnd. rewrite set_keys. destruct (own_get k (own o)) eqn:E; [done|].
  destruct (String.eqb k "__proto__"); [done|].
  apply NoDup_app. split; [done|]. split; [|apply NoDup_singleton].
  intros x Hx Hx'. apply list_elem_of_singleton in Hx'. subst x.
  by apply own_get_None_keys in E.
Qed.

Lemma set_keys_Forall (P : string -> Prop) o k c :
  (k <> "__proto__"%string -> P k) ->
  Forall P (map fst (own o)) -> Forall P (map fst (own (set o k c))).
Proof.
  intros Hk HP. rewrite set_keys. destruct (own_get k (own o)); [done|].
  destruct (String.eqb_spec k "__proto__"); [done|].
  apply Forall_app. split; [done|]. constructor; [by apply Hk|constructor].
Qed.

Lemma assign_all_cons e kvs o :
  assign_all (e :: kvs) o = assign_all kvs (set o (fst e) (snd e)).
Proof. reflexivity. Qed.

Lemma assign_all_app kvs kvs' o :
  assign_all (kvs ++ kvs') o = assign_all kvs' (assign_all kvs o).
Proof. apply fold_left_app. Qed.

Lemma assign_all_keys_NoDup kvs o :
  NoDup (map fst (own o)) -> NoDup (map fst (own (assign_all kvs o))).
Proof.
  revert o. induction kvs as [|e kvs IH]; intros o Hnd; [done|].
  rewrite assign_all_cons. by apply IH, set_keys_NoDup.
Qed.

Lemma assign_all_keys_Forall (P : string -> Prop) kvs o :
  Forall (fun k => k <> "__proto__"%string -> P k) (map fst kvs) ->
  Forall P (map fst (own o)) -> Forall P (map fst (own (assign_all kvs o))).
Proof.
  revert o. induction kvs as [|e kvs IH]; intros o Hk HP; [done|].
  rewrite assign_all_cons. simpl in Hk. apply Forall_cons in Hk as [Hk Hks].
  apply IH; [done|]. by apply set_keys_Forall.
Qed.

Lemma assign_all_own_get k kvs o :
  k <> "__proto__"%string ->
  own_get k (own (assign_all kvs o)) =
  match own_get k (rev kvs) with Some c => Some c | None => own_get k (own o) end.
Proof.
  intros Hk. revert o. induction kvs as [|[k' c] kvs IH]; intros o; [done|].
  rewrite assign_all_cons, IH. simpl. rewrite own_get_app.
  destruct (own_get k (rev kvs)); [done|]. simpl.
  rewrite own_get_set by done. by destruct (String.eqb k k').
Qed.

Lemma assign_all_fresh kvs o :
  NoDup (map fst (own o) ++ map fst kvs) ->
  Forall (fun k => k <> "__proto__"%string) (map fst kvs) ->
  assign_all kvs o = mkStorage (proto o) (own o ++ kvs).
Proof.
  revert o. induction kvs as [|[k c] kvs IH]; intros [p l] Hnd Hk; simpl in *.
  - by rewrite app_nil_r.
  - apply Forall_cons in Hk as [Hk Hks].
    assert (E : own_get k l = None).
    { apply own_get_None_keys. intros Hin.
      apply NoDup_app in Hnd as (_ & Hd & _). apply (Hd k Hin). by left. }
    change (assign_all ((k, c) :: kvs) (mkStorage p l))
      with (assign_all kvs (set (mkStorage p l) k c)).
    rewrite set_fresh by done. simpl. rewrite IH; simpl.
    + by rewrite <- app_assoc.
    + rewrite map_app. simpl. by rewrite <- app_assoc.
    + done.
Qed.

(** The loops of both [loadCoworkers] are such runs of assignments. *)
Lemma file_load_assign data :
  FileVariant.loadCoworkers (FileVariant.FileJson data) =
  assign_all (map (fun e => (toLowerCase (fst e), snd e)) data) empty_object.
Proof.
  unfold FileVariant.loadCoworkers, assign_all.
  generalize empty_object. induction data as [|e data IH]; intros o; simpl; [done|].
  apply IH.
Qed.

Lemma table_load_assign rows :
  TableVariant.normalize_rows rows =
  assign_all (map (fun r => (toLowerCase (TableVariant.name r),
                            TableVariant.coworker_of_row r)) rows) empty_object.
Proof.
  unfold TableVariant.normalize_rows, assign_all.
  generalize empty_object. induction rows as [|r rows IH]; intros o; simpl; [done|].
  apply IH.
Qed.

(** *** Keys of a loaded mapping *)

Lemma registry_keys_nil : registry_keys [].
Proof. split; simpl; constructor. Qed.

Lemma registry_keys_perm l l' :
  Permutation l l' -> registry_keys l -> registry_keys l'.
Proof. intros Hp [Hnd Hk]. split; by rewrite <- Hp. Qed.

Lemma registry_keys_entries o : registry_keys (own o) -> registry_keys (entries o).
Proof. apply registry_keys_perm. symmetry. apply entries_perm. Qed.

Lemma registry_keys_set o k c :
  toLowerCase k = k -> registry_keys (own o) -> registry_keys (own (set o k c)).
Proof.
  intros Hlow [Hnd Hk]. split; [by apply set_keys_NoDup|].
  apply set_keys_Forall; [|done]. by split.
Qed.

Lemma registry_keys_assign_all kvs :
  Forall (fun k => toLowerCase k = k) (map fst kvs) ->
  registry_keys (own (assign_all kvs empty_object)).
Proof.
  intros Hk. split.
  - apply assign_all_keys_NoDup. constructor.
  - apply assign_all_keys_Forall; [|constructor].
    eapply Forall_impl; [exact Hk|]. intros k Hlow Hne. by split.
Qed.

Lemma file_loaded_keys f : registry_keys (own (FileVariant.loadCoworkers f)).
Proof.
  destruct f as [| |data]; try apply registry_keys_nil.
  rewrite file_load_assign. apply registry_keys_assign_all.
  rewrite map_map. simpl. apply Forall_map, Forall_true. intros e. simpl.
  apply toLowerCase_idem.
Qed.

Lemma table_loaded_keys rows : registry_keys (own (TableVariant.normalize_rows rows)).
Proof.
  rewrite table_load_assign. apply registry_keys_assign_all.
  rewrite map_map. simpl. apply Forall_map, Forall_true. intros e. simpl.
  apply toLowerCase_idem.
Qed.

Create HintDb registry discriminated.
#[local] Hint Resolve registry_keys_nil registry_keys_set registry_keys_entries
  file_loaded_keys table_loaded_keys toLowerCase_idem : registry.

Lemma lower_keys_id (l : list (string * Coworker)) :
  Forall registry_key (map fst l) ->
  map (fun e => (toLowerCase (fst e), snd e)) l = l.
Proof.
  induction l as [|[k c] l IH]; simpl; [done|].
  intros Hk. apply Forall_cons in Hk as [[Hlow _] Hks]. by rewrite Hlow, IH.
Qed.

(** *** Reading properties *)

Lemma get_own o k c : own_get k (own o) = Some c -> get o k = JsCoworker c.
Proof. intros E. unfold get. by rewrite E. Qed.

Lemma truthy_get_proto o : truthy (get o "__proto__") = true.
Proof.
  unfold get. destruct (own_get _ (own o)); [done|]. by destruct (proto o).
Qed.

Lemma falsy_not_proto o k : truthy (get o k) = false -> k <> "__proto__"%string.
Proof. intros H ->. by rewrite truthy_get_proto in H. Qed.

Lemma falsy_not_own o k : truthy (get o k) = false -> own_get k (own o) = None.
Proof. unfold get. by destruct (own_get k (own o)). Qed.

Lemma coworker_get_lower p k : toLowerCase k = k -> coworker_get p k = None.
Proof.
  intros Hlow. unfold coworker_get.
  repeat match goal with
         | |- context [String.eqb k ?s] =>
             destruct (String.eqb_spec k s) as [->|_];
             [vm_compute in Hlow; discriminate Hlow|]
         end.
  done.
Qed.

Lemma object_prototype_get_lower v k :
  toLowerCase k = k -> k <> "__proto__"%string -> k <> "constructor"%string ->
  object_prototype_get v k = JsUndefined.
Proof.
  intros Hlow Hp Hc. unfold object_prototype_get, object_prototype_functions. simpl.
  repeat match goal with
         | |- context [String.eqb k ?s] =>
             destruct (String.eqb_spec k s) as [->|_];
             [first [done | vm_compute in Hlow; discriminate Hlow]|]
         end.
  done.
Qed.

(** A normalized name that is not stored reads as [undefined], the two
    names [Object.prototype] answers for apart. *)
Lemma get_absent o k :
  toLowerCase k = k -> k <> "__proto__"%string -> k <> "constructor"%string ->
  own_get k (own o) = None -> get o k = JsUndefined.
Proof.
  intros Hlow Hp Hc E. unfold get. rewrite E.
  destruct (proto o); [rewrite coworker_get_lower by done|];
    by apply object_prototype_get_lower.
Qed.

(** *** Saving, then loading: the JSON file *)

Lemma file_reload o :
  registry_keys (own o) ->
  FileVariant.loadCoworkers (FileVariant.saveCoworkers o) = mkStorage None (entries o).
Proof.
  intros Hk. apply registry_keys_entries in Hk as [Hnd Hks].
  unfold FileVariant.saveCoworkers. rewrite file_load_assign, lower_keys_id by done.
  rewrite assign_all_fresh; [done|done|].
  eapply Forall_impl; [exact Hks|]. by intros k [_ ?].
Qed.

Lemma file_reload_own_get o k :
  registry_keys (own o) ->
  own_get k (own (FileVariant.loadCoworkers (FileVariant.saveCoworkers o)))
  = own_get k (own o).
Proof.
  intros Hk. rewrite file_reload by done. simpl.
  apply registry_keys_entries in Hk as Hk'. destruct Hk' as [Hnd _].
  apply own_get_perm; [done|apply entries_perm].
Qed.

(** *** Saving, then loading: the table *)

Lemma filter_all {A} (P : A -> Prop) `{!forall x, Decision (P x)} (l : list A) :
  (forall x, x ∈ l -> P x) -> filter P l = l.
Proof.
  induction l as [|a l IH]; intros Hall; [done|].
  rewrite filter_cons_True by (apply Hall; by left).
  rewrite IH; [done|]. intros x Hx. apply Hall. by right.
Qed.

Lemma filter_none {A} (P : A -> Prop) `{!forall x, Decision (P x)} (l : list A) :
  (forall x, x ∈ l -> ~ P x) -> filter P l = [].
Proof.
  induction l as [|a l IH]; intros Hall; [done|].
  rewrite filter_cons_False by (apply Hall; by left).
  apply IH. intros x Hx. apply Hall. by right.
Qed.

Lemma upsert_all es rows :
  NoDup (map (fun e => toLowerCase (fst e)) es) ->
  fold_left (fun t e => TableVariant.insert_or_replace (TableVariant.row_of_entry e) t)
            es rows
  = filter (fun x => TableVariant.name x ∉ map (fun e => toLowerCase (fst e)) es) rows
      ++ map TableVariant.row_of_entry es.
Proof.
  revert rows. induction es as [|e es IH]; intros rows Hnd; simpl.
  - rewrite app_nil_r. symmetry. apply filter_all. intros x _. apply not_elem_of_nil.
  - apply NoDup_cons in Hnd as [Hnot Hnd]. rewrite IH by done.
    unfold TableVariant.insert_or_replace at 1. rewrite filter_app.
    rewrite list_filter_filter. simpl.
    rewrite (filter_all _ [_]).
    2:{ intros x Hx. apply list_elem_of_singleton in Hx. by subst x. }
    rewrite <- app_assoc. simpl. f_equal.
    apply list_filter_iff. intros x. rewrite not_elem_of_cons. tauto.
Qed.

Lemma table_save rows o :
  registry_keys (own o) ->
  TableVariant.saveCoworkers rows o
  = filter (fun x => TableVariant.name x ∉ map fst (entries o)) rows
      ++ map TableVariant.row_of_entry (entries o).
Proof.
  intros Hk. apply registry_keys_entries in Hk as [Hnd Hks].
  assert (E : map (fun e => toLowerCase (fst e)) (entries o) = map fst (entries o)).
  { rewrite <- (lower_keys_id (entries o)) at 2 by done. by rewrite map_map. }
  unfold TableVariant.saveCoworkers. rewrite upsert_all; rewrite E; done.
Qed.

Lemma or_absent_idem p : or_absent (or_absent p) = or_absent p.
Proof.
  destruct p as [s|]; simpl; [|done].
  destruct (String.eqb s "") eqn:E; simpl; [done|]. by rewrite E.
Qed.

Lemma rows_back es :
  Forall registry_key (map fst es) ->
  map (fun r => (toLowerCase (TableVariant.name r), TableVariant.coworker_of_row r))
      (map TableVariant.row_of_entry es)
  = map (fun e => (fst e, stored (snd e))) es.
Proof.
  induction es as [|[k c] es IH]; simpl; [done|].
  intros Hk. apply Forall_cons in Hk as [[Hlow _] Hks]. rewrite IH by done.
  unfold TableVariant.coworker_of_row, stored. simpl.
  by rewrite toLowerCase_idem, Hlow, or_absent_idem.
Qed.

Lemma own_get_map (h : Coworker -> Coworker) k es :
  own_get k (map (fun e => (fst e, h (snd e))) es) = h <$> own_get k es.
Proof.
  induction es as [|[k' c] es IH]; simpl; [done|].
  by destruct (String.eqb k k').
Qed.

Lemma table_reload_own_get rows o k :
  registry_keys (own o) -> k <> "__proto__"%string ->
  own_get k (own (TableVariant.normalize_rows (TableVariant.saveCoworkers rows o)))
  = match own_get k (own o) with
    | Some c => Some (stored c)
    | None =>
        own_get k (own (TableVariant.normalize_rows
          (filter (fun x => TableVariant.name x ∉ map fst (entries o)) rows)))
    end.
Proof.
  intros Hk Hne. rewrite table_save by done.
  rewrite !table_load_assign, map_app, assign_all_app, assign_all_own_get by done.
  apply registry_keys_entries in Hk as Hk'. destruct Hk' as [Hnd Hks].
  rewrite rows_back by done.
  set (B := map (fun e => (fst e, stored (snd e))) (entries o)).
  assert (HB : map fst B = map fst (entries o)) by (unfold B; by rewrite map_map).
  rewrite <- (own_get_perm k B (rev B)).
  2:{ by rewrite HB. }
  2:{ apply Permutation_rev. }
  unfold B. rewrite own_get_map.
  rewrite (own_get_perm k (entries o) (own o)) by (done || apply entries_perm).
  by destruct (own_get k (own o)).
Qed.

(** *** create *)

Lemma or_absent_Some v s : or_absent v = Some s -> v = Some s /\ s <> EmptyString.
Proof.
  destruct v as [x|]; simpl; [|done].
  destruct (String.eqb_spec x ""); [done|]. by intros [= ->].
Qed.

(** The record a successful create stores is read back by the next load:
    the JSON file. *)
Lemma file_after_create o k c :
  registry_keys (own o) -> toLowerCase k = k -> truthy (get o k) = false ->
  get (FileVariant.loadCoworkers (FileVariant.saveCoworkers (set o k c))) k
  = JsCoworker c.
Proof.
  intros Hk Hlow Hf. apply get_own. rewrite file_reload_own_get.
  - rewrite own_get_set by (by eapply falsy_not_proto). by rewrite String.eqb_refl.
  - by apply registry_keys_set.
Qed.

(** The same for the table; the record comes back as [stored]. *)
Lemma table_after_create rows o k c :
  registry_keys (own o) -> toLowerCase k = k -> truthy (get o k) = false ->
  get (TableVariant.normalize_rows (TableVariant.saveCoworkers rows (set o k c))) k
  = JsCoworker (stored c).
Proof.
  intros Hk Hlow Hf. apply get_own.
  assert (Hne : k <> "__proto__"%string) by (by eapply falsy_not_proto).
  rewrite table_reload_own_get by (done || by apply registry_keys_set).
  rewrite own_get_set by done. by rewrite String.eqb_refl.
Qed.

(** Two display names that differ only in the case of ASCII letters name
    the same coworker: after a successful create of one, a create of the
    other answers AlreadyExists, its text ends with the session identifier
    of the stored record (the one the first create was given), the session
    service is not called, and the store and the liveness maps stay as
    they were.  Both variants. *)
Theorem create_twice_ignoring_case :
  forall (n1 n2 : string) (a1 a2 : option string) (p1 p2 : string)
         (ctx1 ctx2 : ToolContext) (svc1 svc2 : Service),
    differ_only_in_ascii_case n1 n2 ->
    (forall (st : FileVariant.State) (t : string),
        FileVariant.outcome (FileVariant.createCoworkerTool n1 a1 p1 ctx1 svc1 st)
        = Returned Done t ->
        exists sid st1,
          st1 = FileVariant.after (FileVariant.createCoworkerTool n1 a1 p1 ctx1 svc1 st) /\
          created_id svc1 = Some sid /\
          get_sessionId (get (FileVariant.loadCoworkers (FileVariant.storageFile st1))
                             (toLowerCase n2)) = Some sid /\
          FileVariant.createCoworkerTool n2 a2 p2 ctx2 svc2 st1
          = FileVariant.mkRun
              (Returned AlreadyExists
                 ("Error: Coworker " +:+ dquote +:+ toLowerCase n2 +:+ dquote
                    +:+ " already exists with session " +:+ sid))
              st1 [])
    /\
    (forall (st : TableVariant.State) (t : string),
        TableVariant.outcome (TableVariant.createCoworkerTool n1 a1 p1 ctx1 svc1 st)
        = Returned Done t ->
        exists sid st1 stored_map,
          st1 = TableVariant.after (TableVariant.createCoworkerTool n1 a1 p1 ctx1 svc1 st) /\
          created_id svc1 = Some sid /\
          TableVariant.loadCoworkers (TableVariant.db st1) = Some stored_map /\
          get_sessionId (get stored_map (toLowerCase n2)) = Some sid /\
          TableVariant.createCoworkerTool n2 a2 p2 ctx2 svc2 st1
          = TableVariant.mkRun
              (Returned AlreadyExists
                 ("Error: Coworker " +:+ dquote +:+ toLowerCase n2 +:+ dquote
                    +:+ " already exists with session " +:+ sid))
              st1 []).
Proof.
  intros n1 n2 a1 a2 p1 p2 ctx1 ctx2 svc1 svc2 Hcase.
  apply differ_only_in_ascii_case_lower in Hcase. rewrite <- Hcase. split.
  - intros st t. unfold FileVariant.createCoworkerTool at 1 2.
    destruct (truthy (get _ (toLowerCase n1))) eqn:Hf; [done|].
    destruct (or_absent (created_id svc1)) as [sid|] eqn:Hid; [|done].
    intros _. apply or_absent_Some in Hid as [Hid _].
    eexists sid, _. split; [reflexivity|]. split; [done|].
    cbn [FileVariant.after FileVariant.storageFile].
    pose proof (file_loaded_keys (FileVariant.storageFile st)) as Hk.
    pose proof (toLowerCase_idem n1) as Hlow.
    split; [by rewrite file_after_create|].
    unfold FileVariant.createCoworkerTool.
    cbn [FileVariant.after FileVariant.storageFile]. rewrite <- Hcase.
    by rewrite file_after_create.
  - intros st t. unfold TableVariant.createCoworkerTool at 1 2.
    destruct (TableVariant.getDb (TableVariant.db st)) as [rows|] eqn:Hdb; [|done].
    cbn zeta.
    destruct (truthy (get _ (toLowerCase n1))) eqn:Hf; [done|].
    destruct (or_absent (created_id svc1)) as [sid|] eqn:Hid; [|done].
    intros _. apply or_absent_Some in Hid as [Hid _].
    eexists sid, _, _. split; [reflexivity|]. split; [done|].
    cbn [TableVariant.after TableVariant.db TableVariant.loadCoworkers TableVariant.getDb
         TableVariant.activeSessions TableVariant.sessionParents].
    pose proof (table_loaded_keys rows) as Hk.
    pose proof (toLowerCase_idem n1) as Hlow.
    split; [reflexivity|].
    split; [by rewrite table_after_create|].
    unfold TableVariant.createCoworkerTool.
    cbn [TableVariant.after TableVariant.db TableVariant.getDb
         TableVariant.activeSessions TableVariant.sessionParents]. rewrite <- Hcase.
    by rewrite table_after_create.
Qed.

(** C1 does not hold outside ASCII.  The names [Names.irmak] (with the
    dotless i, U+0131) and [Names.IRMAK] differ only in letter case: the
    second is the first in uppercase.  [toLowerCase] leaves the first as it
    is and turns the second into "irmak", with the dotted i; the two keys
    differ, so after a successful create of the first, a create of the
    second does not answer AlreadyExists: it asks for a new session,
    prompts it and stores a second record.  Both variants. *)
Theorem create_twice_dotless_i :
  toLowerCase Names.irmak = Names.irmak /\
  toLowerCase Names.IRMAK = "irmak"%string /\
  (let st1 :=
     FileVariant.after
       (FileVariant.createCoworkerTool Names.irmak None "hi" Sample.caller
          Sample.first_session (FileVariant.initial FileVariant.FileMissing)) in
   FileVariant.storageFile st1
   = FileVariant.FileJson [(Names.irmak, Sample.bob)] /\
   FileVariant.createCoworkerTool Names.IRMAK None "hi" Sample.caller
     Sample.second_session st1
   = FileVariant.mkRun
       (Returned Done ("Created coworker " +:+ dquote +:+ "irmak" +:+ dquote
                         +:+ " (code) with session ses_2"))
       (FileVariant.mkState
          (FileVariant.FileJson
             [(Names.irmak, Sample.bob);
              ("irmak"%string,
               mkCoworker "ses_2" "code" "2026-01-02T00:00:00.000Z"
                          (Some "ses_caller"%string))])
          (<["ses_2"%string := "irmak"%string]> (FileVariant.activeSessions st1))
          (<["ses_2"%string := "ses_caller"%string]> (FileVariant.sessionParents st1)))
       [SessionCreate (Some "ses_caller"%string) "IRMAK (code)";
        SessionPrompt (Some "ses_2"%string) "hi" (Some "code"%string)])
  /\
  (let st1 :=
     TableVariant.after
       (TableVariant.createCoworkerTool Names.irmak None "hi" Sample.caller
          Sample.first_session (TableVariant.initial TableVariant.DbMissing)) in
   TableVariant.outcome
     (TableVariant.createCoworkerTool Names.IRMAK None "hi" Sample.caller
        Sample.second_session st1)
   = Returned Done ("Created coworker " +:+ dquote +:+ "irmak" +:+ dquote
                      +:+ " (general) with session ses_2") /\
   map TableVariant.name
     (default []
        (TableVariant.getDb
           (TableVariant.db
              (TableVariant.after
                 (TableVariant.createCoworkerTool Names.IRMAK None "hi" Sample.caller
                    Sample.second_session st1)))))
   = [Names.irmak; "irmak"%string]).
Proof. repeat split; reflexivity. Qed.

(** C6.  When the session service is asked for a session and hands back no
    identifier (none at all, or the empty string), create answers
    UpstreamFailure; the one call made is the session creation, so no
    prompt is sent; the store is not written and the liveness maps are
    unchanged.  Both variants. *)
Theorem create_without_session_id :
  forall (n : string) (a : option string) (p : string) (ctx : ToolContext)
         (svc : Service),
    or_absent (created_id svc) = None ->
    (forall st : FileVariant.State,
        (exists parent title,
            SessionCreate parent title
              ∈ FileVariant.calls (FileVariant.createCoworkerTool n a p ctx svc st)) ->
        FileVariant.createCoworkerTool n a p ctx svc st
        = FileVariant.mkRun
            (Returned UpstreamFailure "Error: Failed to create session") st
            [SessionCreate (Some (sessionID ctx))
                           (n +:+ " (" +:+ default "code"%string a +:+ ")")])
    /\
    (forall st : TableVariant.State,
        (exists parent title,
            SessionCreate parent title
              ∈ TableVariant.calls (TableVariant.createCoworkerTool n a p ctx svc st)) ->
        let r := TableVariant.createCoworkerTool n a p ctx svc st in
        TableVariant.outcome r
          = Returned UpstreamFailure "Error: Failed to create session" /\
        TableVariant.calls r
          = [SessionCreate None (n +:+ " (" +:+ default "general"%string a +:+ ")")] /\
        TableVariant.getDb (TableVariant.db (TableVariant.after r))
          = TableVariant.getDb (TableVariant.db st) /\
        TableVariant.activeSessions (TableVariant.after r) = TableVariant.activeSessions st /\
        TableVariant.sessionParents (TableVariant.after r) = TableVariant.sessionParents st).
Proof.
  intros n a p ctx svc Hid. split.
  - intros st (parent & title & Hcall). revert Hcall.
    unfold FileVariant.createCoworkerTool. rewrite Hid.
    destruct (truthy _); simpl; [by rewrite elem_of_nil|done].
  - intros st (parent & title & Hcall). revert Hcall.
    unfold TableVariant.createCoworkerTool. rewrite Hid.
    destruct (TableVariant.getDb (TableVariant.db st)) as [rows|] eqn:Hdb;
      simpl; [|by rewrite elem_of_nil].
    destruct (truthy _); simpl; [by rewrite elem_of_nil|done].
Qed.

(** *** The liveness maps *)

(** What one tool call does to the two maps: nothing, or one session
    entered in both (create), or one session dropped from both (remove,
    which only the table variant has). *)
Lemma file_exec_liveness_effect op st :
  (FileVariant.activeSessions (FileVariant.after (FileVariant.exec op st))
     = FileVariant.activeSessions st /\
   FileVariant.sessionParents (FileVariant.after (FileVariant.exec op st))
     = FileVariant.sessionParents st)
  \/
  (exists sid name parent,
      FileVariant.activeSessions (FileVariant.after (FileVariant.exec op st))
        = <[sid := name]> (FileVariant.activeSessions st) /\
      FileVariant.sessionParents (FileVariant.after (FileVariant.exec op st))
        = <[sid := parent]> (FileVariant.sessionParents st)).
Proof.
  destruct op as [n a p ctx svc| |n m]; simpl.
  - unfold FileVariant.createCoworkerTool.
    destruct (truthy _); [by left|]. destruct (or_absent _); [|by left].
    right. by eexists _, _, _.
  - left. unfold FileVariant.listCoworkersTool. by destruct (entries _).
  - left. unfold FileVariant.tellCoworkerTool. by destruct (negb _).
Qed.

Lemma table_exec_liveness_effect op st :
  (TableVariant.activeSessions (TableVariant.after (TableVariant.exec op st))
     = TableVariant.activeSessions st /\
   TableVariant.sessionParents (TableVariant.after (TableVariant.exec op st))
     = TableVariant.sessionParents st)
  \/
  (exists sid name parent,
      TableVariant.activeSessions (TableVariant.after (TableVariant.exec op st))
        = <[sid := name]> (TableVariant.activeSessions st) /\
      TableVariant.sessionParents (TableVariant.after (TableVariant.exec op st))
        = <[sid := parent]> (TableVariant.sessionParents st))
  \/
  (exists sid,
      TableVariant.activeSessions (TableVariant.after (TableVariant.exec op st))
        = delete sid (TableVariant.activeSessions st) /\
      TableVariant.sessionParents (TableVariant.after (TableVariant.exec op st))
        = delete sid (TableVariant.sessionParents st)).
Proof.
  destruct op as [n a p ctx svc| |n m|n]; simpl.
  - unfold TableVariant.createCoworkerTool.
    destruct (TableVariant.getDb _); [|by left]. cbn zeta.
    destruct (truthy _); [by left|]. destruct (or_absent _); [|by left].
    right. left. by eexists _, _, _.
  - left. unfold TableVariant.listCoworkersTool.
    destruct (TableVariant.getDb _); [|done]. by destruct (entries _).
  - left. unfold TableVariant.tellCoworkerTool.
    destruct (TableVariant.getDb _); [|done]. cbn zeta. by destruct (negb _).
  - unfold TableVariant.removeCoworkerTool.
    destruct (TableVariant.getDb _); [|by left]. cbn zeta.
    destruct (negb _); [by left|]. simpl.
    destruct (get_sessionId _) as [sid|]; [|by left].
    right. right. by exists sid.
Qed.

Lemma file_exec_liveness op st :
  dom (FileVariant.activeSessions st) = dom (FileVariant.sessionParents st) ->
  dom (FileVariant.activeSessions (FileVariant.after (FileVariant.exec op st)))
  = dom (FileVariant.sessionParents (FileVariant.after (FileVariant.exec op st))).
Proof.
  intros Hinv.
  destruct (file_exec_liveness_effect op st)
    as [[-> ->]|(sid & name & parent & -> & ->)]; [done|].
  by rewrite !dom_insert_L, Hinv.
Qed.

Lemma table_exec_liveness op st :
  dom (TableVariant.activeSessions st) = dom (TableVariant.sessionParents st) ->
  dom (TableVariant.activeSessions (TableVariant.after (TableVariant.exec op st)))
  = dom (TableVariant.sessionParents (TableVariant.after (TableVariant.exec op st))).
Proof.
  intros Hinv.
  destruct (table_exec_liveness_effect op st)
    as [[-> ->]|[(sid & name & parent & -> & ->)|(sid & -> & ->)]]; [done| |].
  - by rewrite !dom_insert_L, Hinv.
  - by rewrite !dom_delete_L, Hinv.
Qed.

(** C10.  The two liveness maps, session -> name and session -> parent,
    have the same keys in every state the tools can reach from the start
    of the process, whatever the store holds and whatever the service
    answers.  Both variants. *)
Theorem liveness_maps_same_keys :
  (forall (f : FileVariant.FileState) (ops : list FileVariant.Op),
      dom (FileVariant.activeSessions (FileVariant.run ops (FileVariant.initial f)))
      = dom (FileVariant.sessionParents (FileVariant.run ops (FileVariant.initial f))))
  /\
  (forall (d : TableVariant.DbState) (ops : list TableVariant.Op),
      dom (TableVariant.activeSessions (TableVariant.run ops (TableVariant.initial d)))
      = dom (TableVariant.sessionParents (TableVariant.run ops (TableVariant.initial d)))).
Proof.
  split.
  - intros f ops. unfold FileVariant.run.
    assert (Hinit : dom (FileVariant.activeSessions (FileVariant.initial f))
                    = dom (FileVariant.sessionParents (FileVariant.initial f))) by done.
    revert Hinit. generalize (FileVariant.initial f).
    induction ops as [|op ops IH]; intros st Hinv; [done|].
    simpl. by apply IH, file_exec_liveness.
  - intros d ops. unfold TableVariant.run.
    assert (Hinit : dom (TableVariant.activeSessions (TableVariant.initial d))
                    = dom (TableVariant.sessionParents (TableVariant.initial d))) by done.
    revert Hinit. generalize (TableVariant.initial d).
    induction ops as [|op ops IH]; intros st Hinv; [done|].
    simpl. by apply IH, table_exec_liveness.
Qed.

(** *** list *)

Lemma file_load_registry f :
  registry_keys (file_records f) ->
  FileVariant.loadCoworkers f = mkStorage None (file_records f).
Proof.
  destruct f as [| |data]; try done. simpl file_records. intros [Hnd Hks].
  rewrite file_load_assign, lower_keys_id by done.
  rewrite assign_all_fresh; [done|done|].
  eapply Forall_impl; [exact Hks|]. by intros k [_ ?].
Qed.

Lemma table_load_registry rows :
  registry_keys (table_records rows) ->
  TableVariant.normalize_rows rows = mkStorage None (table_records rows).
Proof.
  intros [Hnd Hks]. rewrite table_load_assign.
  assert (E : map (fun r => (toLowerCase (TableVariant.name r),
                            TableVariant.coworker_of_row r)) rows
              = table_records rows).
  { transitivity (map (fun e => (toLowerCase (fst e), snd e)) (table_records rows));
      [unfold table_records; by rewrite map_map|by apply lower_keys_id]. }
  rewrite E, assign_all_fresh; [done|done|].
  eapply Forall_impl; [exact Hks|]. by intros k [_ ?].
Qed.

Lemma join_newline_separated lines : join lines = Listing.newline_separated lines.
Proof.
  unfold join. induction lines as [|l [|l' rest] IH]; [done|done|].
  change (String.concat newline (l :: l' :: rest))
    with (l +:+ newline +:+ String.concat newline (l' :: rest)).
  rewrite IH. done.
Qed.

Lemma list_line_line_of live e : list_line live e = Listing.line_of live e.
Proof.
  unfold list_line, Listing.line_of, Listing.line, has, arrow.
  destruct (decide (sessionId (snd e) ∈ dom live)) as [Hin|Hout].
  - apply elem_of_dom in Hin. by rewrite bool_decide_eq_true_2.
  - rewrite bool_decide_eq_false_2; [done|]. intros Hs. by apply Hout, elem_of_dom.
Qed.

Lemma list_text live o :
  exists es,
    Permutation es (own o) /\
    entries o = es /\
    match es with
    | [] => "No coworkers found"%string
    | _ :: _ => join (map (list_line live) es)
    end
    = match es with
      | [] => "No coworkers found"%string
      | _ :: _ => Listing.newline_separated (map (Listing.line_of live) es)
      end.
Proof.
  exists (entries o). split; [apply entries_perm|]. split; [done|].
  destruct (entries o) as [|e es]; [done|].
  by rewrite join_newline_separated, (map_ext _ _ (list_line_line_of live)).
Qed.



(** *** The two variants side by side *)

Lemma records_of_rows es :
  Forall registry_key (map fst es) ->
  Forall (fun e => stored (snd e) = snd e) es ->
  table_records (map TableVariant.row_of_entry es) = es.
Proof.
  induction es as [|[k c] es IH]; simpl; [done|].
  intros Hk Hp. apply Forall_cons in Hk as [[Hlow _] Hks].
  apply Forall_cons in Hp as [Hc Hps]. simpl in Hc.
  unfold table_records in *. simpl. rewrite IH by done. f_equal.
  unfold TableVariant.coworker_of_row. simpl.
  fold (stored c). rewrite or_absent_idem. fold (stored c). by rewrite Hlow, Hc.
Qed.

Lemma same_records_loads f rows :
  same_records f rows ->
  FileVariant.loadCoworkers f = mkStorage None (file_records f) /\
  TableVariant.normalize_rows rows = mkStorage None (file_records f).
Proof.
  intros (_ & Hk & Hp & ->). split; [by apply file_load_registry|].
  destruct Hk as [Hnd Hks].
  rewrite table_load_registry; rewrite records_of_rows; done.
Qed.

Lemma stored_parent s : s <> EmptyString ->
  forall sid a t, stored (mkCoworker sid a t (Some s)) = mkCoworker sid a t (Some s).
Proof.
  intros Hs sid a t. unfold stored. simpl.
  by destruct (String.eqb_spec s "").
Qed.

Lemma same_records_after_create es k c :
  registry_keys es -> Forall (fun e => stored (snd e) = snd e) es ->
  toLowerCase k = k -> k <> "__proto__"%string -> own_get k es = None ->
  stored c = c ->
  same_records
    (FileVariant.saveCoworkers (set (mkStorage None es) k c))
    (TableVariant.saveCoworkers (map TableVariant.row_of_entry es)
                                (set (mkStorage None es) k c)).
Proof.
  intros Hk Hp Hlow Hne Hfresh Hc.
  assert (Hk' : registry_keys (own (set (mkStorage None es) k c)))
    by auto with registry.
  rewrite table_save by done.
  set (o' := set (mkStorage None es) k c) in *.
  assert (Hown : own o' = es ++ [(k, c)]) by (unfold o'; by rewrite set_fresh).
  split; [done|]. split; [by apply registry_keys_entries|]. split.
  - simpl. rewrite (entries_perm o'), Hown. apply Forall_app. split; [done|].
    by constructor.
  - simpl. rewrite (filter_none _ (map _ es)); [done|].
    intros r Hr Hnot. apply Hnot. apply list_elem_of_fmap in Hr as (e & -> & He).
    rewrite (entries_perm o'), Hown, map_app. apply elem_of_app. left.
    destruct Hk as [_ Hks]. rewrite Forall_forall in Hks.
    assert (Hin : fst e ∈ map fst es) by (by apply list_elem_of_fmap_2).
    simpl. destruct (Hks _ Hin) as [-> _]. done.
Qed.

(** C2 does not hold.  From empty stores and the same answer of the
    session service, create_coworker("Bob") without agent type answers
    with the agent type "code" in [src/index.ts] and "general" in the
    SQLite variant (whose own description of the argument says the default
    is 'code'), and stores records that differ in it; the calls differ as
    well: only [src/index.ts] passes the caller as parent, only the SQLite
    variant puts the name before the prompt. *)
Theorem variants_disagree_on_create :
  agree (FileVariant.initial FileVariant.FileMissing)
        (TableVariant.initial TableVariant.DbMissing) /\
  FileVariant.createCoworkerTool "Bob" None "hi" Sample.caller Sample.first_session
    (FileVariant.initial FileVariant.FileMissing)
  = FileVariant.mkRun
      (Returned Done ("Created coworker " +:+ dquote +:+ "bob" +:+ dquote
                        +:+ " (code) with session ses_1"))
      (FileVariant.mkState
         (FileVariant.FileJson
            [("bob"%string,
              mkCoworker "ses_1" "code" "2026-01-01T00:00:00.000Z"
                         (Some "ses_caller"%string))])
         {[ "ses_1"%string := "bob"%string ]}
         {[ "ses_1"%string := "ses_caller"%string ]})
      [SessionCreate (Some "ses_caller"%string) "Bob (code)";
       SessionPrompt (Some "ses_1"%string) "hi" (Some "code"%string)] /\
  TableVariant.createCoworkerTool "Bob" None "hi" Sample.caller Sample.first_session
    (TableVariant.initial TableVariant.DbMissing)
  = TableVariant.mkRun
      (Returned Done ("Created coworker " +:+ dquote +:+ "bob" +:+ dquote
                        +:+ " (general) with session ses_1"))
      (TableVariant.mkState
         (TableVariant.DbTable
            [TableVariant.mkRow "bob" "ses_1" "general" "2026-01-01T00:00:00.000Z"
                                (Some "ses_caller"%string)])
         {[ "ses_1"%string := "bob"%string ]}
         {[ "ses_1"%string := "ses_caller"%string ]})
      [SessionCreate None "Bob (general)";
       SessionPrompt (Some "ses_1"%string) "IMPORTANT: your name is 'Bob'. hi"
                     (Some "general"%string)].
Proof.
  split; [|split; reflexivity].
  split; [|done]. exists []. split; [done|].
  split; [done|]. split; [apply registry_keys_nil|]. split; [constructor|done].
Qed.

(** Where the two variants do agree.  Started from a JSON file and a table
    that hold the same records in the same order, with the same liveness
    maps and the same answers from the session service, list and tell give
    the same result, make the same calls, and leave the two variants
    holding the same records, in the same order, and the same liveness
    maps; so does create when the agent type is given and the caller's
    session identifier is not empty, as far as the result and the final
    contents go. *)
Lemma variants_agree :
  forall (sf : FileVariant.State) (st : TableVariant.State),
    agree sf st ->
    (FileVariant.outcome (FileVariant.listCoworkersTool sf)
       = TableVariant.outcome (TableVariant.listCoworkersTool st) /\
     FileVariant.calls (FileVariant.listCoworkersTool sf)
       = TableVariant.calls (TableVariant.listCoworkersTool st) /\
     agree (FileVariant.after (FileVariant.listCoworkersTool sf))
           (TableVariant.after (TableVariant.listCoworkersTool st)))
    /\
    (forall n m : string,
        FileVariant.outcome (FileVariant.tellCoworkerTool n m sf)
          = TableVariant.outcome (TableVariant.tellCoworkerTool n m st) /\
        FileVariant.calls (FileVariant.tellCoworkerTool n m sf)
          = TableVariant.calls (TableVariant.tellCoworkerTool n m st) /\
        agree (FileVariant.after (FileVariant.tellCoworkerTool n m sf))
              (TableVariant.after (TableVariant.tellCoworkerTool n m st)))
    /\
    (forall (n a p : string) (ctx : ToolContext) (svc : Service),
        sessionID ctx <> EmptyString ->
        FileVariant.outcome (FileVariant.createCoworkerTool n (Some a) p ctx svc sf)
          = TableVariant.outcome (TableVariant.createCoworkerTool n (Some a) p ctx svc st) /\
        agree (FileVariant.after (FileVariant.createCoworkerTool n (Some a) p ctx svc sf))
              (TableVariant.after (TableVariant.createCoworkerTool n (Some a) p ctx svc st))).
Proof.
  intros [f act par] [d act' par'] ((rows & Hdb & Hsame) & Hact & Hpar).
  simpl in Hdb, Hsame, Hact, Hpar. subst act' par'.
  destruct (same_records_loads _ _ Hsame) as [Hlf Hlt].
  assert (Hkeep : agree (FileVariant.mkState f act par)
                        (TableVariant.mkState (TableVariant.DbTable rows) act par)).
  { split; [|done]. by exists rows. }
  split; [|split].
  - unfold FileVariant.listCoworkersTool, TableVariant.listCoworkersTool.
    cbn [FileVariant.storageFile TableVariant.db FileVariant.activeSessions].
    rewrite Hdb, Hlf. cbn zeta. rewrite Hlt.
    cbn [TableVariant.activeSessions].
    by destruct (entries _).
  - intros n m. unfold FileVariant.tellCoworkerTool, TableVariant.tellCoworkerTool.
    cbn [FileVariant.storageFile TableVariant.db].
    rewrite Hdb, Hlf. cbn zeta. rewrite Hlt.
    by destruct (negb _).
  - intros n a p ctx svc Hctx.
    unfold FileVariant.createCoworkerTool, TableVariant.createCoworkerTool.
    cbn [FileVariant.storageFile TableVariant.db].
    rewrite Hdb, Hlf. cbn zeta. rewrite Hlt. simpl default.
    destruct (truthy _) eqn:Hf; [done|].
    destruct (or_absent (created_id svc)) as [sid|]; [|done].
    split; [done|]. split; [|done].
    cbn [FileVariant.after FileVariant.storageFile TableVariant.after TableVariant.db
         TableVariant.getDb]. eexists. split; [reflexivity|].
    destruct Hsame as (_ & Hk & Hp & ->).
    apply same_records_after_create; try done.
    + apply toLowerCase_idem.
    + by eapply falsy_not_proto.
    + by apply falsy_not_own in Hf.
    + by apply stored_parent.
Qed.

(** *** Round trip through the store *)

Lemma registry_keys_no_proto l : registry_keys l -> own_get "__proto__" l = None.
Proof.
  intros [_ Hks]. apply own_get_None_keys. intros Hin.
  rewrite Forall_forall in Hks. by destruct (Hks _ Hin) as [_ ?].
Qed.

Lemma rows_outside_mapping rows (keys : list string) k :
  (forall r, r ∈ rows -> toLowerCase (TableVariant.name r) ∈ keys) ->
  k ∉ keys -> k <> "__proto__"%string ->
  own_get k (own (TableVariant.normalize_rows
                    (filter (fun x => TableVariant.name x ∉ keys) rows))) = None.
Proof.
  intros Hrows Hk Hne.
  rewrite table_load_assign, assign_all_own_get by done. simpl.
  match goal with |- match ?x with _ => _ end = _ => assert (E : x = None) end;
    [|by rewrite E].
  apply own_get_None_keys. rewrite <- Permutation_rev, map_map. simpl.
  intros Hin. apply list_elem_of_fmap in Hin as (r & -> & Hr).
  apply list_elem_of_filter in Hr as [_ Hr]. by apply Hk, Hrows.
Qed.

(** C5, as stated, fails: the table keeps the rows it already had; it
    gives an empty [parentId] back as absent; a key that is not normalized
    comes back normalized, from the file as well; and a key [__proto__]
    is lost on loading, because assigning it sets the prototype. *)
Lemma save_then_load_differs :
  own_get "alice"
    (own (TableVariant.normalize_rows
            (TableVariant.saveCoworkers [Sample.alice_row]
               (mkStorage None [("bob"%string, Sample.bob)]))))
  <> own_get "alice" [("bob"%string, Sample.bob)]
  /\
  own_get "bob"
    (own (TableVariant.normalize_rows
            (TableVariant.saveCoworkers []
               (mkStorage None
                  [("bob"%string, mkCoworker "ses_1" "code" "t" (Some ""%string))]))))
  <> own_get "bob" [("bob"%string, mkCoworker "ses_1" "code" "t" (Some ""%string))]
  /\
  own_get "Bob"
    (own (FileVariant.loadCoworkers
            (FileVariant.saveCoworkers (mkStorage None [("Bob"%string, Sample.bob)]))))
  <> own_get "Bob" [("Bob"%string, Sample.bob)]
  /\
  own_get "__proto__"
    (own (FileVariant.loadCoworkers
            (FileVariant.saveCoworkers
               (mkStorage None [("__proto__"%string, Sample.bob)]))))
  <> own_get "__proto__" [("__proto__"%string, Sample.bob)].
Proof. repeat split; vm_compute; discriminate. Qed.

(** C5, amended.  A mapping under registry keys, saved and loaded again,
    comes back with the same keys and, under each key, the same record,
    field for field: through the JSON file always; through the table when
    every row already there is keyed, up to case, by a name of the mapping,
    and no [parentId] of the mapping is the empty string. *)
Theorem save_then_load :
  forall m : CoworkerStorage,
    registry_keys (own m) ->
    (forall k,
        own_get k (own (FileVariant.loadCoworkers (FileVariant.saveCoworkers m)))
        = own_get k (own m))
    /\
    (forall rows : list TableVariant.Row,
        (forall r, r ∈ rows -> toLowerCase (TableVariant.name r) ∈ map fst (own m)) ->
        Forall (fun e => stored (snd e) = snd e) (own m) ->
        exists reloaded,
          TableVariant.loadCoworkers
            (TableVariant.DbTable (TableVariant.saveCoworkers rows m)) = Some reloaded /\
          forall k, own_get k (own reloaded) = own_get k (own m)).
Proof.
  intros m Hk. split; [intros k; by apply file_reload_own_get|].
  intros rows Hrows Hp. eexists. split; [reflexivity|]. intros k.
  destruct (decide (k = "__proto__"%string)) as [->|Hne].
  - rewrite (registry_keys_no_proto (own m)) by done.
    apply registry_keys_no_proto, table_loaded_keys.
  - rewrite table_reload_own_get by done.
    destruct (own_get k (own m)) as [c|] eqn:E.
    + apply own_get_Some_elem in E. rewrite Forall_forall in Hp.
      f_equal. exact (Hp _ E).
    + apply own_get_None_keys in E. apply rows_outside_mapping; [| |done].
      * intros r Hr. rewrite (entries_perm m). by apply Hrows.
      * by rewrite (entries_perm m).
Qed.

(** *** The first prompt *)

(** The table variant introduces the coworker to itself. *)
Lemma table_create_prompt n a p ctx svc st t :
  TableVariant.outcome (TableVariant.createCoworkerTool n a p ctx svc st)
    = Returned Done t ->
  exists sid,
    created_id svc = Some sid /\
    TableVariant.calls (TableVariant.createCoworkerTool n a p ctx svc st)
    = [SessionCreate None (n +:+ " (" +:+ default "general"%string a +:+ ")");
       SessionPrompt (Some sid)
         ("IMPORTANT: your name is '" +:+ n +:+ "'. " +:+ p)
         (Some (default "general"%string a))].
Proof.
  unfold TableVariant.createCoworkerTool.
  destruct (TableVariant.getDb _); [|done]. cbn zeta.
  destruct (truthy _); [done|].
  destruct (or_absent (created_id svc)) as [sid|] eqn:Hid; [|done].
  intros _. exists sid. by apply or_absent_Some in Hid as [-> _].
Qed.

(** The file variant sends the caller's text as it is. *)
Lemma file_create_prompt n a p ctx svc st t :
  FileVariant.outcome (FileVariant.createCoworkerTool n a p ctx svc st)
    = Returned Done t ->
  exists sid,
    created_id svc = Some sid /\
    FileVariant.calls (FileVariant.createCoworkerTool n a p ctx svc st)
    = [SessionCreate (Some (sessionID ctx)) (n +:+ " (" +:+ default "code"%string a +:+ ")");
       SessionPrompt (Some sid) p (Some (default "code"%string a))].
Proof.
  unfold FileVariant.createCoworkerTool.
  destruct (truthy _); [done|].
  destruct (or_absent (created_id svc)) as [sid|] eqn:Hid; [|done].
  intros _. exists sid. by apply or_absent_Some in Hid as [-> _].
Qed.

(** C3 does not hold of [src/index.ts]: creating "Bob" with the prompt
    "hi" succeeds and the prompt sent to the new session is "hi", with no
    word about the name; the table variant sends the preamble. *)
Theorem file_create_prompt_has_no_preamble :
  FileVariant.createCoworkerTool "Bob" None "hi" Sample.caller Sample.first_session
    (FileVariant.initial FileVariant.FileMissing)
  = FileVariant.mkRun
      (Returned Done ("Created coworker " +:+ dquote +:+ "bob" +:+ dquote
                        +:+ " (code) with session ses_1"))
      (FileVariant.mkState
         (FileVariant.FileJson [("bob"%string, Sample.bob)])
         {[ "ses_1"%string := "bob"%string ]}
         {[ "ses_1"%string := "ses_caller"%string ]})
      [SessionCreate (Some "ses_caller"%string) "Bob (code)";
       SessionPrompt (Some "ses_1"%string) "hi" (Some "code"%string)]
  /\
  TableVariant.calls
    (TableVariant.createCoworkerTool "Bob" None "hi" Sample.caller Sample.first_session
       (TableVariant.initial TableVariant.DbMissing))
  = [SessionCreate None "Bob (general)";
     SessionPrompt (Some "ses_1"%string) "IMPORTANT: your name is 'Bob'. hi"
                   (Some "general"%string)].
Proof. split; reflexivity. Qed.

(** *** loadCoworkers *)

(** Whatever the store holds, the keys of the loaded mapping are
    normalized. *)
Lemma loaded_keys_normalized :
  (forall f k, k ∈ map fst (own (FileVariant.loadCoworkers f)) -> toLowerCase k = k) /\
  (forall d m k, TableVariant.loadCoworkers d = Some m ->
                 k ∈ map fst (own m) -> toLowerCase k = k).
Proof.
  split.
  - intros f k Hin. destruct (file_loaded_keys f) as [_ Hks].
    rewrite Forall_forall in Hks. by destruct (Hks _ Hin).
  - intros d m k. unfold TableVariant.loadCoworkers.
    destruct (TableVariant.getDb d) as [rows|]; [|done]. intros [= <-] Hin.
    destruct (table_loaded_keys rows) as [_ Hks].
    rewrite Forall_forall in Hks. by destruct (Hks _ Hin).
Qed.

(** A missing store loads as the empty mapping, and so does a JSON file
    that cannot be read or parsed. *)
Lemma load_without_store :
  FileVariant.loadCoworkers FileVariant.FileMissing = empty_object /\
  FileVariant.loadCoworkers FileVariant.FileUnreadable = empty_object /\
  TableVariant.loadCoworkers TableVariant.DbMissing = Some empty_object.
Proof. done. Qed.

(** C4 does not hold of the table variant: a database that cannot be
    opened or queried makes [loadCoworkers] throw, and every tool with it,
    where the file variant answers with the empty mapping. *)
Theorem table_load_throws :
  TableVariant.loadCoworkers TableVariant.DbUnusable = None /\
  TableVariant.outcome
    (TableVariant.listCoworkersTool (TableVariant.initial TableVariant.DbUnusable))
  = Threw /\
  FileVariant.loadCoworkers FileVariant.FileUnreadable = empty_object /\
  FileVariant.outcome
    (FileVariant.listCoworkersTool (FileVariant.initial FileVariant.FileUnreadable))
  = Returned Done "No coworkers found".
Proof. done. Qed.

(** *** tell *)

(** A name that is not stored, and that [Object.prototype] does not
    answer for, is reported as not found, and nobody is called. *)
Lemma tell_unknown_name :
  forall (n m : string),
    toLowerCase n <> "constructor"%string -> toLowerCase n <> "__proto__"%string ->
    (forall st,
        own_get (toLowerCase n) (own (FileVariant.loadCoworkers (FileVariant.storageFile st)))
          = None ->
        exists t, FileVariant.tellCoworkerTool n m st
                  = FileVariant.mkRun (Returned NotFound t) st [])
    /\
    (forall st rows,
        TableVariant.getDb (TableVariant.db st) = Some rows ->
        own_get (toLowerCase n) (own (TableVariant.normalize_rows rows)) = None ->
        exists t, TableVariant.outcome (TableVariant.tellCoworkerTool n m st)
                    = Returned NotFound t /\
                  TableVariant.calls (TableVariant.tellCoworkerTool n m st) = []).
Proof.
  intros n m Hc Hp. pose proof (toLowerCase_idem n) as Hlow. split.
  - intros st E. unfold FileVariant.tellCoworkerTool.
    rewrite get_absent by done. simpl. eauto.
  - intros st rows Hdb E. unfold TableVariant.tellCoworkerTool.
    rewrite Hdb. cbn zeta. rewrite get_absent by done. simpl. eauto.
Qed.

(** A stored name gets the message, word for word, on the session of its
    record; the store and the liveness maps stay as they were. *)
Lemma tell_known_name :
  forall (n m : string) (c : Coworker),
    (forall st,
        own_get (toLowerCase n) (own (FileVariant.loadCoworkers (FileVariant.storageFile st)))
          = Some c ->
        FileVariant.tellCoworkerTool n m st
        = FileVariant.mkRun
            (Returned Done ("Queued message to " +:+ dquote +:+ toLowerCase n +:+ dquote
                              +:+ " (" +:+ agentType c +:+ ")"))
            st [SessionPrompt (Some (sessionId c)) m None])
    /\
    (forall st rows,
        TableVariant.getDb (TableVariant.db st) = Some rows ->
        own_get (toLowerCase n) (own (TableVariant.normalize_rows rows)) = Some c ->
        TableVariant.tellCoworkerTool n m st
        = TableVariant.mkRun
            (Returned Done ("Queued message to " +:+ dquote +:+ toLowerCase n +:+ dquote
                              +:+ " (" +:+ agentType c +:+ ")"))
            (TableVariant.mkState (TableVariant.DbTable rows)
               (TableVariant.activeSessions st) (TableVariant.sessionParents st))
            [SessionPrompt (Some (sessionId c)) m None]).
Proof.
  intros n m c. split.
  - intros st E. unfold FileVariant.tellCoworkerTool. by rewrite (get_own _ _ _ E).
  - intros st rows Hdb E. unfold TableVariant.tellCoworkerTool.
    rewrite Hdb. cbn zeta. by rewrite (get_own _ _ _ E).
Qed.

(** C7 does not hold of either variant: nothing is stored, yet telling
    "constructor" something finds [Object.prototype.constructor] in the
    loaded mapping, reports success and calls the session service, on a
    session that is [undefined]. *)
Theorem tell_constructor_reaches_the_service :
  own (FileVariant.loadCoworkers FileVariant.FileMissing) = [] /\
  FileVariant.tellCoworkerTool "constructor" "hi"
    (FileVariant.initial FileVariant.FileMissing)
  = FileVariant.mkRun
      (Returned Done ("Queued message to " +:+ dquote +:+ "constructor" +:+ dquote
                        +:+ " (undefined)"))
      (FileVariant.initial FileVariant.FileMissing)
      [SessionPrompt None "hi" None]
  /\
  TableVariant.tellCoworkerTool "constructor" "hi"
    (TableVariant.initial (TableVariant.DbTable []))
  = TableVariant.mkRun
      (Returned Done ("Queued message to " +:+ dquote +:+ "constructor" +:+ dquote
                        +:+ " (undefined)"))
      (TableVariant.initial (TableVariant.DbTable []))
      [SessionPrompt None "hi" None].
Proof. repeat split; reflexivity. Qed.

(** *** remove *)

Lemma delete_row_spec k rows r :
  r ∈ TableVariant.delete_row k rows <-> TableVariant.name r <> k /\ r ∈ rows.
Proof. unfold TableVariant.delete_row. by rewrite list_elem_of_filter. Qed.

(** A name that is not stored, and that [Object.prototype] does not
    answer for, is reported as not found; nothing changes. *)
Lemma remove_unknown_name :
  forall (n : string) st rows,
    toLowerCase n <> "constructor"%string -> toLowerCase n <> "__proto__"%string ->
    TableVariant.getDb (TableVariant.db st) = Some rows ->
    own_get (toLowerCase n) (own (TableVariant.normalize_rows rows)) = None ->
    exists t,
      TableVariant.removeCoworkerTool n st
      = TableVariant.mkRun (Returned NotFound t)
          (TableVariant.mkState (TableVariant.DbTable rows)
             (TableVariant.activeSessions st) (TableVariant.sessionParents st))
          [].
Proof.
  intros n st rows Hc Hp Hdb E. pose proof (toLowerCase_idem n) as Hlow.
  unfold TableVariant.removeCoworkerTool. rewrite Hdb. cbn zeta.
  rewrite get_absent by done. simpl. eauto.
Qed.

(** A stored name loses its row and its session leaves both liveness
    maps; the other rows stay, and the session service is not called. *)
Lemma remove_known_name :
  forall (n : string) (c : Coworker) st rows,
    TableVariant.getDb (TableVariant.db st) = Some rows ->
    own_get (toLowerCase n) (own (TableVariant.normalize_rows rows)) = Some c ->
    exists t rows',
      TableVariant.removeCoworkerTool n st
      = TableVariant.mkRun (Returned Done t)
          (TableVariant.mkState (TableVariant.DbTable rows')
             (delete (sessionId c) (TableVariant.activeSessions st))
             (delete (sessionId c) (TableVariant.sessionParents st)))
          [] /\
      forall r, r ∈ rows' <-> TableVariant.name r <> toLowerCase n /\ r ∈ rows.
Proof.
  intros n c st rows Hdb E.
  unfold TableVariant.removeCoworkerTool. rewrite Hdb. cbn zeta.
  rewrite (get_own _ _ _ E). simpl. eexists _, _. split; [reflexivity|].
  intros r. apply delete_row_spec.
Qed.

(** C8 does not hold for the names [Object.prototype] answers for:
    nothing is stored, yet removing "Constructor" reports a removal
    instead of NotFound.  Same defect as in tell. *)
Theorem remove_constructor_reports_success :
  own (TableVariant.normalize_rows []) = [] /\
  TableVariant.removeCoworkerTool "Constructor"
    (TableVariant.initial (TableVariant.DbTable []))
  = TableVariant.mkRun
      (Returned Done ("Removed coworker " +:+ dquote +:+ "constructor" +:+ dquote
                        +:+ " (undefined)"))
      (TableVariant.initial (TableVariant.DbTable []))
      [].
Proof. split; reflexivity. Qed.

(** *** Registry keys are what the tools write *)

Lemma file_exec_registry_keys op st :
  registry_keys (file_records (FileVariant.storageFile st)) ->
  registry_keys
    (file_records (FileVariant.storageFile (FileVariant.after (FileVariant.exec op st)))).
Proof.
  intros Hk. destruct op as [n a p ctx svc| |n m]; simpl.
  - unfold FileVariant.createCoworkerTool.
    destruct (truthy _); [done|]. destruct (or_absent _); [|done]. simpl.
    auto with registry.
  - unfold FileVariant.listCoworkersTool. by destruct (entries _).
  - unfold FileVariant.tellCoworkerTool. by destruct (negb _).
Qed.

Lemma table_records_rows_of es :
  Forall registry_key (map fst es) ->
  table_records (map TableVariant.row_of_entry es)
  = map (fun e => (fst e, stored (snd e))) es.
Proof.
  induction es as [|[k c] es IH]; simpl; [done|].
  intros Hk. apply Forall_cons in Hk as [[Hlow _] Hks].
  unfold table_records in *. simpl. rewrite IH by done.
  unfold TableVariant.coworker_of_row, stored. simpl.
  by rewrite Hlow, or_absent_idem.
Qed.

Lemma table_save_registry rows k c :
  registry_keys (table_records rows) ->
  toLowerCase k = k ->
  registry_keys
    (table_records
       (TableVariant.saveCoworkers rows (set (TableVariant.normalize_rows rows) k c))).
Proof.
  intros Hk Hlow. rewrite (table_load_registry _ Hk).
  set (o' := set (mkStorage None (table_records rows)) k c).
  assert (Hk' : registry_keys (own o')) by (by apply registry_keys_set).
  assert (Hsub : forall x, x ∈ map fst (table_records rows) -> x ∈ map fst (entries o')).
  { intros x Hx. rewrite (entries_perm o'). unfold o'. rewrite set_keys. simpl.
    destruct (own_get k _); [done|]. destruct (String.eqb k _); [done|].
    apply elem_of_app. by left. }
  rewrite table_save by done.
  rewrite (filter_none _ rows).
  2:{ intros r Hr Hnot. apply Hnot, Hsub. unfold table_records. rewrite map_map.
      simpl. by apply (list_elem_of_fmap_2 TableVariant.name). }
  apply registry_keys_entries in Hk' as [Hnd Hks]. simpl.
  rewrite table_records_rows_of by done. split; by rewrite map_map.
Qed.

Lemma registry_keys_delete_row k rows :
  registry_keys (table_records rows) ->
  registry_keys (table_records (TableVariant.delete_row k rows)).
Proof.
  unfold registry_keys, table_records. rewrite !map_map. simpl.
  induction rows as [|r rows IH]; [done|]. simpl.
  rewrite NoDup_cons, Forall_cons. intros [[Hnot Hnd] [Hr Hks]].
  unfold TableVariant.delete_row in *. rewrite filter_cons.
  destruct (decide (TableVariant.name r <> k)); [|by apply IH].
  simpl. rewrite NoDup_cons, Forall_cons.
  destruct (IH (conj Hnd Hks)) as [Hnd' Hks']. split; [split; [|done]|by split].
  intros Hin. apply Hnot. apply list_elem_of_fmap in Hin as (x & Hx & Hin).
  apply list_elem_of_filter in Hin as [_ Hin]. rewrite Hx.
  by apply (list_elem_of_fmap_2 TableVariant.name).
Qed.

Lemma table_exec_registry_keys op st rows :
  TableVariant.getDb (TableVariant.db st) = Some rows ->
  registry_keys (table_records rows) ->
  exists rows',
    TableVariant.getDb (TableVariant.db (TableVariant.after (TableVariant.exec op st)))
      = Some rows' /\
    registry_keys (table_records rows').
Proof.
  intros Hdb Hk. destruct op as [n a p ctx svc| |n m|n]; simpl.
  - unfold TableVariant.createCoworkerTool. rewrite Hdb. cbn zeta.
    destruct (truthy _); [by exists rows|].
    destruct (or_absent _); [|by exists rows]. simpl.
    eexists. split; [done|]. apply table_save_registry; auto with registry.
  - unfold TableVariant.listCoworkersTool. rewrite Hdb. cbn zeta.
    destruct (entries _); by exists rows.
  - unfold TableVariant.tellCoworkerTool. rewrite Hdb. cbn zeta.
    destruct (negb _); by exists rows.
  - unfold TableVariant.removeCoworkerTool. rewrite Hdb. cbn zeta.
    destruct (negb _); [by exists rows|]. simpl.
    eexists. split; [done|]. by apply registry_keys_delete_row.
Qed.

(** Started on a missing store, the tools only ever leave records under
    registry keys behind. *)
Lemma stores_stay_under_registry_keys :
  (forall ops,
      registry_keys
        (file_records
           (FileVariant.storageFile
              (FileVariant.run ops (FileVariant.initial FileVariant.FileMissing)))))
  /\
  (forall ops,
      exists rows,
        TableVariant.getDb
          (TableVariant.db
             (TableVariant.run ops (TableVariant.initial TableVariant.DbMissing)))
          = Some rows /\
        registry_keys (table_records rows)).
Proof.
  split.
  - intros ops. unfold FileVariant.run.
    assert (Hinit : registry_keys
              (file_records (FileVariant.storageFile
                               (FileVariant.initial FileVariant.FileMissing))))
      by apply registry_keys_nil.
    revert Hinit. generalize (FileVariant.initial FileVariant.FileMissing).
    induction ops as [|op ops IH]; intros st Hk; [done|].
    simpl. by apply IH, file_exec_registry_keys.
  - intros ops. unfold TableVariant.run.
    assert (Hinit : exists rows,
              TableVariant.getDb
                (TableVariant.db (TableVariant.initial TableVariant.DbMissing))
                = Some rows /\ registry_keys (table_records rows)).
    { exists []. split; [done|apply registry_keys_nil]. }
    revert Hinit. generalize (TableVariant.initial TableVariant.DbMissing).
    induction ops as [|op ops IH]; intros st (rows & Hdb & Hk); [by exists rows|].
    simpl. apply IH. by eapply table_exec_registry_keys.
Qed.

(** *** The theorems at work on concrete calls *)

Lemma agree_initial :
  agree (FileVariant.initial FileVariant.FileMissing)
        (TableVariant.initial TableVariant.DbMissing).
Proof.
  split; [|done]. exists []. split; [done|].
  split; [done|]. split; [apply registry_keys_nil|]. split; [constructor|done].
Qed.

Lemma registry_keys_bob : registry_keys [("bob"%string, Sample.bob)].
Proof.
  split; simpl.
  - apply NoDup_singleton.
  - constructor; [|constructor]. split; [reflexivity|discriminate].
Qed.

Lemma create_twice_ignoring_case_witness :
  differ_only_in_ascii_case "Bob" "bOB" /\
  FileVariant.createCoworkerTool "bOB" None "again" Sample.caller Sample.second_session
    (FileVariant.after
       (FileVariant.createCoworkerTool "Bob" None "hi" Sample.caller Sample.first_session
          (FileVariant.initial FileVariant.FileMissing)))
  = FileVariant.mkRun
      (Returned AlreadyExists
         ("Error: Coworker " +:+ dquote +:+ "bob" +:+ dquote
            +:+ " already exists with session ses_1"))
      (FileVariant.after
         (FileVariant.createCoworkerTool "Bob" None "hi" Sample.caller Sample.first_session
            (FileVariant.initial FileVariant.FileMissing)))
      [] /\
  TableVariant.createCoworkerTool "bOB" None "again" Sample.caller Sample.second_session
    (TableVariant.after
       (TableVariant.createCoworkerTool "Bob" None "hi" Sample.caller Sample.first_session
          (TableVariant.initial TableVariant.DbMissing)))
  = TableVariant.mkRun
      (Returned AlreadyExists
         ("Error: Coworker " +:+ dquote +:+ "bob" +:+ dquote
            +:+ " already exists with session ses_1"))
      (TableVariant.after
         (TableVariant.createCoworkerTool "Bob" None "hi" Sample.caller Sample.first_session
            (TableVariant.initial TableVariant.DbMissing)))
      [].
Proof.
  assert (Hcase : differ_only_in_ascii_case "Bob" "bOB").
  { apply same_char; [right; left; by split|].
    apply same_char; [right; right; by split|].
    apply same_char; [right; right; by split|]. apply same_end. }
  split; [exact Hcase|].
  destruct (create_twice_ignoring_case "Bob" "bOB" None None "hi" "again"
              Sample.caller Sample.caller Sample.first_session Sample.second_session
              Hcase) as [Hfile Htable].
  split.
  - destruct (Hfile (FileVariant.initial FileVariant.FileMissing) _ eq_refl)
      as (sid & st1 & -> & Hsid & _ & Hrun).
    injection Hsid as <-. exact Hrun.
  - destruct (Htable (TableVariant.initial TableVariant.DbMissing) _ eq_refl)
      as (sid & st1 & m & -> & Hsid & _ & _ & Hrun).
    injection Hsid as <-. exact Hrun.
Defined.

Lemma create_without_session_id_witness :
  FileVariant.createCoworkerTool "Bob" None "hi" Sample.caller Sample.no_session
    (FileVariant.initial FileVariant.FileMissing)
  = FileVariant.mkRun (Returned UpstreamFailure "Error: Failed to create session")
      (FileVariant.initial FileVariant.FileMissing)
      [SessionCreate (Some "ses_caller"%string) "Bob (code)"] /\
  TableVariant.calls
    (TableVariant.createCoworkerTool "Bob" None "hi" Sample.caller Sample.no_session
       (TableVariant.initial TableVariant.DbMissing))
  = [SessionCreate None "Bob (general)"].
Proof.
  destruct (create_without_session_id "Bob" None "hi" Sample.caller Sample.no_session
              eq_refl) as [Hfile Htable].
  split.
  - apply Hfile. eexists _, _. apply list_elem_of_here.
  - refine (proj1 (proj2 (Htable (TableVariant.initial TableVariant.DbMissing) _))).
    eexists _, _. apply list_elem_of_here.
Defined.



Lemma variants_agree_witness :
  FileVariant.outcome
    (FileVariant.createCoworkerTool "Bob" (Some "code"%string) "hi" Sample.caller
       Sample.first_session (FileVariant.initial FileVariant.FileMissing))
  = TableVariant.outcome
    (TableVariant.createCoworkerTool "Bob" (Some "code"%string) "hi" Sample.caller
       Sample.first_session (TableVariant.initial TableVariant.DbMissing)) /\
  agree
    (FileVariant.after
       (FileVariant.createCoworkerTool "Bob" (Some "code"%string) "hi" Sample.caller
          Sample.first_session (FileVariant.initial FileVariant.FileMissing)))
    (TableVariant.after
       (TableVariant.createCoworkerTool "Bob" (Some "code"%string) "hi" Sample.caller
          Sample.first_session (TableVariant.initial TableVariant.DbMissing))).
Proof.
  apply (variants_agree _ _ agree_initial). discriminate.
Defined.

Lemma save_then_load_witness :
  (forall k,
      own_get k (own (FileVariant.loadCoworkers
                        (FileVariant.saveCoworkers
                           (mkStorage None [("bob"%string, Sample.bob)]))))
      = own_get k [("bob"%string, Sample.bob)]) /\
  (exists reloaded,
      TableVariant.loadCoworkers
        (TableVariant.DbTable
           (TableVariant.saveCoworkers
              [TableVariant.mkRow "BOB" "ses_old" "general" "2025-01-01" None]
              (mkStorage None [("bob"%string, Sample.bob)]))) = Some reloaded /\
      forall k, own_get k (own reloaded) = own_get k [("bob"%string, Sample.bob)]).
Proof.
  destruct (save_then_load (mkStorage None [("bob"%string, Sample.bob)])
              registry_keys_bob) as [Hfile Htable].
  split; [exact Hfile|]. apply Htable.
  - intros r Hr. apply list_elem_of_singleton in Hr. subst r. apply list_elem_of_here.
  - constructor; [reflexivity|constructor].
Defined.

(** * More of the plugin *)

(** *** What a successful create leaves behind *)

Lemma file_create_done n a p ctx svc st t :
  FileVariant.outcome (FileVariant.createCoworkerTool n a p ctx svc st)
    = Returned Done t ->
  truthy (get (FileVariant.loadCoworkers (FileVariant.storageFile st)) (toLowerCase n))
    = false /\
  exists sid,
    created_id svc = Some sid /\ sid <> EmptyString /\
    FileVariant.createCoworkerTool n a p ctx svc st
    = FileVariant.mkRun
        (Returned Done
           ("Created coworker " +:+ dquote +:+ toLowerCase n +:+ dquote +:+ " ("
              +:+ default "code"%string a +:+ ") with session " +:+ sid))
        (FileVariant.mkState
           (FileVariant.saveCoworkers
              (set (FileVariant.loadCoworkers (FileVariant.storageFile st))
                   (toLowerCase n)
                   (mkCoworker sid (default "code"%string a) (clock svc)
                               (Some (sessionID ctx)))))
           (<[sid := toLowerCase n]> (FileVariant.activeSessions st))
           (<[sid := sessionID ctx]> (FileVariant.sessionParents st)))
        [SessionCreate (Some (sessionID ctx))
                       (n +:+ " (" +:+ default "code"%string a +:+ ")");
         SessionPrompt (Some sid) p (Some (default "code"%string a))].
Proof.
  unfold FileVariant.createCoworkerTool.
  destruct (truthy _) eqn:Hf; [done|].
  destruct (or_absent (created_id svc)) as [sid|] eqn:Hid; [|done].
  intros _. split; [done|]. apply or_absent_Some in Hid as [Hid Hne].
  by exists sid.
Qed.

Lemma table_create_done n a p ctx svc st t :
  TableVariant.outcome (TableVariant.createCoworkerTool n a p ctx svc st)
    = Returned Done t ->
  exists rows sid,
    TableVariant.getDb (TableVariant.db st) = Some rows /\
    truthy (get (TableVariant.normalize_rows rows) (toLowerCase n)) = false /\
    created_id svc = Some sid /\ sid <> EmptyString /\
    TableVariant.createCoworkerTool n a p ctx svc st
    = TableVariant.mkRun
        (Returned Done
           ("Created coworker " +:+ dquote +:+ toLowerCase n +:+ dquote +:+ " ("
              +:+ default "general"%string a +:+ ") with session " +:+ sid))
        (TableVariant.mkState
           (TableVariant.DbTable
              (TableVariant.saveCoworkers rows
                 (set (TableVariant.normalize_rows rows) (toLowerCase n)
                      (mkCoworker sid (default "general"%string a) (clock svc)
                                  (Some (sessionID ctx))))))
           (<[sid := toLowerCase n]> (TableVariant.activeSessions st))
           (<[sid := sessionID ctx]> (TableVariant.sessionParents st)))
        [SessionCreate None (n +:+ " (" +:+ default "general"%string a +:+ ")");
         SessionPrompt (Some sid)
           ("IMPORTANT: your name is '" +:+ n +:+ "'. " +:+ p)
           (Some (default "general"%string a))].
Proof.
  unfold TableVariant.createCoworkerTool.
  destruct (TableVariant.getDb _) as [rows|] eqn:Hdb; [|done]. cbn zeta.
  destruct (truthy _) eqn:Hf; [done|].
  destruct (or_absent (created_id svc)) as [sid|] eqn:Hid; [|done].
  intros _. apply or_absent_Some in Hid as [Hid Hne].
  by exists rows, sid.
Qed.

(** X1.  A successful create stores, under the normalized name, a record
    made of the identifier the service gave, the agent type (the
    variant's default when none is given), the time of the call and the
    caller's session; the next load reads it back, and both liveness maps
    hold the new session, mapped to the name and to the caller. *)
Theorem create_stores_the_record :
  forall (n : string) (a : option string) (p : string) (ctx : ToolContext)
         (svc : Service),
    (forall (st : FileVariant.State) (t : string),
        FileVariant.outcome (FileVariant.createCoworkerTool n a p ctx svc st)
          = Returned Done t ->
        exists sid,
          let st1 := FileVariant.after (FileVariant.createCoworkerTool n a p ctx svc st) in
          created_id svc = Some sid /\
          get (FileVariant.loadCoworkers (FileVariant.storageFile st1)) (toLowerCase n)
            = JsCoworker (mkCoworker sid (default "code"%string a) (clock svc)
                                     (Some (sessionID ctx))) /\
          FileVariant.activeSessions st1 !! sid = Some (toLowerCase n) /\
          FileVariant.sessionParents st1 !! sid = Some (sessionID ctx))
    /\
    (forall (st : TableVariant.State) (t : string),
        TableVariant.outcome (TableVariant.createCoworkerTool n a p ctx svc st)
          = Returned Done t ->
        exists sid stored_map,
          let st1 := TableVariant.after (TableVariant.createCoworkerTool n a p ctx svc st) in
          created_id svc = Some sid /\
          TableVariant.loadCoworkers (TableVariant.db st1) = Some stored_map /\
          get stored_map (toLowerCase n)
            = JsCoworker (mkCoworker sid (default "general"%string a) (clock svc)
                                     (or_absent (Some (sessionID ctx)))) /\
          TableVariant.activeSessions st1 !! sid = Some (toLowerCase n) /\
          TableVariant.sessionParents st1 !! sid = Some (sessionID ctx)).
Proof.
  intros n a p ctx svc. split.
  - intros st t Hdone. destruct (file_create_done _ _ _ _ _ _ _ Hdone)
      as (Hf & sid & Hid & _ & ->).
    exists sid. cbn zeta. cbn [FileVariant.after FileVariant.storageFile
      FileVariant.activeSessions FileVariant.sessionParents].
    split; [done|]. split; [|by rewrite !lookup_insert_eq].
    apply file_after_create; auto with registry.
  - intros st t Hdone. destruct (table_create_done _ _ _ _ _ _ _ Hdone)
      as (rows & sid & Hdb & Hf & Hid & _ & ->).
    eexists sid, _. cbn zeta. cbn [TableVariant.after TableVariant.db
      TableVariant.activeSessions TableVariant.sessionParents
      TableVariant.loadCoworkers TableVariant.getDb].
    split; [done|]. split; [reflexivity|]. split; [|by rewrite !lookup_insert_eq].
    rewrite table_after_create; auto with registry.
Qed.

(** *** Every loaded record is listed *)

Lemma file_list_shows st k c :
  own_get k (own (FileVariant.loadCoworkers (FileVariant.storageFile st))) = Some c ->
  exists lines,
    FileVariant.outcome (FileVariant.listCoworkersTool st) = Returned Done (join lines) /\
    list_line (FileVariant.activeSessions st) (k, c) ∈ lines.
Proof.
  intros E. apply own_get_Some_elem in E. rewrite <- entries_perm in E.
  unfold FileVariant.listCoworkersTool.
  destruct (entries _) as [|e es] eqn:Hes; [by apply elem_of_nil in E|].
  eexists. split; [reflexivity|]. by apply (list_elem_of_fmap_2 (list_line _)).
Qed.

Lemma table_list_shows st rows k c :
  TableVariant.getDb (TableVariant.db st) = Some rows ->
  own_get k (own (TableVariant.normalize_rows rows)) = Some c ->
  exists lines,
    TableVariant.outcome (TableVariant.listCoworkersTool st) = Returned Done (join lines) /\
    list_line (TableVariant.activeSessions st) (k, c) ∈ lines.
Proof.
  intros Hdb E. apply own_get_Some_elem in E. rewrite <- entries_perm in E.
  unfold TableVariant.listCoworkersTool. rewrite Hdb. cbn zeta.
  destruct (entries _) as [|e es] eqn:Hes; [by apply elem_of_nil in E|].
  eexists. split; [reflexivity|]. by apply (list_elem_of_fmap_2 (list_line _)).
Qed.

Lemma list_line_active act sid k c :
  sessionId c = sid ->
  list_line (<[sid := k]> act) (k, c)
  = k +:+ " (" +:+ agentType c +:+ ") " +:+ arrow +:+ " " +:+ sid +:+ " [active]".
Proof.
  intros <-. unfold list_line, has. simpl.
  rewrite bool_decide_eq_true_2; [done|]. rewrite lookup_insert_eq. by eexists.
Qed.

Lemma file_after_create_own o k c :
  registry_keys (own o) -> toLowerCase k = k -> truthy (get o k) = false ->
  own_get k (own (FileVariant.loadCoworkers (FileVariant.saveCoworkers (set o k c))))
  = Some c.
Proof.
  intros Hk Hlow Hf. rewrite file_reload_own_get by auto with registry.
  rewrite own_get_set by (by eapply falsy_not_proto). by rewrite String.eqb_refl.
Qed.

Lemma table_after_create_own rows o k c :
  registry_keys (own o) -> toLowerCase k = k -> truthy (get o k) = false ->
  own_get k (own (TableVariant.normalize_rows
                    (TableVariant.saveCoworkers rows (set o k c))))
  = Some (stored c).
Proof.
  intros Hk Hlow Hf.
  assert (Hne : k <> "__proto__"%string) by (by eapply falsy_not_proto).
  rewrite table_reload_own_get by auto with registry.
  rewrite own_get_set by done. by rewrite String.eqb_refl.
Qed.

Lemma list_line_active_line act sid k c :
  sessionId c = sid ->
  list_line (<[sid := k]> act) (k, c) = Listing.line k (agentType c) sid "active".
Proof. intros Hs. by rewrite (list_line_active _ _ _ _ Hs). Qed.

(** X2.  Right after a successful create, the text list_coworkers answers
    with is made of lines separated by line feeds, and one of them is the
    line of the new coworker: its normalized name, its agent type in
    parentheses, the arrow, the session the service gave, and the tag
    active in brackets. *)
Theorem create_then_list :
  forall (n : string) (a : option string) (p : string) (ctx : ToolContext)
         (svc : Service),
    (forall (st : FileVariant.State) (t : string),
        FileVariant.outcome (FileVariant.createCoworkerTool n a p ctx svc st)
          = Returned Done t ->
        exists sid lines,
          created_id svc = Some sid /\
          FileVariant.outcome
            (FileVariant.listCoworkersTool
               (FileVariant.after (FileVariant.createCoworkerTool n a p ctx svc st)))
          = Returned Done (Listing.newline_separated lines) /\
          Listing.line (toLowerCase n) (default "code"%string a) sid "active" ∈ lines)
    /\
    (forall (st : TableVariant.State) (t : string),
        TableVariant.outcome (TableVariant.createCoworkerTool n a p ctx svc st)
          = Returned Done t ->
        exists sid lines,
          created_id svc = Some sid /\
          TableVariant.outcome
            (TableVariant.listCoworkersTool
               (TableVariant.after (TableVariant.createCoworkerTool n a p ctx svc st)))
          = Returned Done (Listing.newline_separated lines) /\
          Listing.line (toLowerCase n) (default "general"%string a) sid "active" ∈ lines).
Proof.
  intros n a p ctx svc. split.
  - intros st t Hdone.
    destruct (file_create_done _ _ _ _ _ _ _ Hdone) as (Hf & sid & Hid & _ & Hrun).
    pose proof (file_after_create_own _ (toLowerCase n)
                  (mkCoworker sid (default "code"%string a) (clock svc)
                              (Some (sessionID ctx)))
                  (file_loaded_keys (FileVariant.storageFile st))
                  (toLowerCase_idem n) Hf) as Hget.
    rewrite Hrun. cbn [FileVariant.after].
    match goal with
    | |- context [FileVariant.listCoworkersTool ?s] =>
        destruct (file_list_shows s _ _ Hget) as (lines & Hout & Hin)
    end.
    exists sid, lines. split; [done|].
    split; [by rewrite <- join_newline_separated|].
    cbn [FileVariant.activeSessions] in Hin.
    by rewrite list_line_active_line in Hin.
  - intros st t Hdone.
    destruct (table_create_done _ _ _ _ _ _ _ Hdone)
      as (rows & sid & Hdb & Hf & Hid & _ & Hrun).
    pose proof (table_after_create_own rows _ (toLowerCase n)
                  (mkCoworker sid (default "general"%string a) (clock svc)
                              (Some (sessionID ctx)))
                  (table_loaded_keys rows) (toLowerCase_idem n) Hf) as Hget.
    rewrite Hrun. cbn [TableVariant.after].
    match goal with
    | |- context [TableVariant.listCoworkersTool ?s] =>
        destruct (table_list_shows s _ _ _ eq_refl Hget) as (lines & Hout & Hin)
    end.
    exists sid, lines. split; [done|].
    split; [by rewrite <- join_newline_separated|].
    cbn [TableVariant.activeSessions] in Hin.
    by rewrite list_line_active_line in Hin.
Qed.

(** X3.  After a successful create, tell_coworker under any name that
    [toLowerCase] takes to the same key as the created name (a spelling
    that differs in the case of the letters A to Z, for one) sends the
    message, as it is and without agent, to the session the service gave
    at creation; it changes nothing. *)
Theorem create_then_tell :
  forall (n n' : string) (a : option string) (p m : string) (ctx : ToolContext)
         (svc : Service),
    toLowerCase n' = toLowerCase n ->
    (forall (st : FileVariant.State) (t : string),
        FileVariant.outcome (FileVariant.createCoworkerTool n a p ctx svc st)
          = Returned Done t ->
        exists sid st1,
          st1 = FileVariant.after (FileVariant.createCoworkerTool n a p ctx svc st) /\
          created_id svc = Some sid /\
          FileVariant.tellCoworkerTool n' m st1
          = FileVariant.mkRun
              (Returned Done ("Queued message to " +:+ dquote +:+ toLowerCase n
                                +:+ dquote +:+ " (" +:+ default "code"%string a +:+ ")"))
              st1 [SessionPrompt (Some sid) m None])
    /\
    (forall (st : TableVariant.State) (t : string),
        TableVariant.outcome (TableVariant.createCoworkerTool n a p ctx svc st)
          = Returned Done t ->
        exists sid st1,
          st1 = TableVariant.after (TableVariant.createCoworkerTool n a p ctx svc st) /\
          created_id svc = Some sid /\
          TableVariant.tellCoworkerTool n' m st1
          = TableVariant.mkRun
              (Returned Done ("Queued message to " +:+ dquote +:+ toLowerCase n
                                +:+ dquote +:+ " (" +:+ default "general"%string a +:+ ")"))
              st1 [SessionPrompt (Some sid) m None]).
Proof.
  intros n n' a p m ctx svc Hcase. symmetry in Hcase. split.
  - intros st t Hdone.
    destruct (file_create_done _ _ _ _ _ _ _ Hdone) as (Hf & sid & Hid & _ & Hrun).
    exists sid. eexists. split; [reflexivity|]. split; [done|].
    rewrite Hrun. cbn [FileVariant.after].
    unfold FileVariant.tellCoworkerTool. cbn [FileVariant.storageFile]. rewrite <- Hcase.
    rewrite file_after_create; auto with registry.
  - intros st t Hdone.
    destruct (table_create_done _ _ _ _ _ _ _ Hdone)
      as (rows & sid & Hdb & Hf & Hid & _ & Hrun).
    exists sid. eexists. split; [reflexivity|]. split; [done|].
    rewrite Hrun. cbn [TableVariant.after].
    unfold TableVariant.tellCoworkerTool.
    cbn [TableVariant.db TableVariant.getDb TableVariant.activeSessions
         TableVariant.sessionParents]. rewrite <- Hcase.
    rewrite table_after_create; auto with registry.
Qed.

(** *** Records are written once *)

Lemma own_get_registry_key l k c :
  registry_keys l -> own_get k l = Some c -> registry_key k.
Proof.
  intros [_ Hks] E. apply own_get_Some_elem in E.
  rewrite Forall_forall in Hks. apply Hks.
  by apply (list_elem_of_fmap_2 fst) in E.
Qed.

Lemma file_exec_keeps_records op st k c :
  own_get k (own (FileVariant.loadCoworkers (FileVariant.storageFile st))) = Some c ->
  own_get k (own (FileVariant.loadCoworkers
                    (FileVariant.storageFile (FileVariant.after (FileVariant.exec op st)))))
  = Some c.
Proof.
  intros E. destruct op as [n a p ctx svc| |n m]; simpl.
  - unfold FileVariant.createCoworkerTool.
    destruct (truthy _) eqn:Hf; [done|]. destruct (or_absent _); [|done].
    cbn [FileVariant.after FileVariant.storageFile].
    rewrite file_reload_own_get by auto with registry.
    rewrite own_get_set.
    + destruct (String.eqb_spec k (toLowerCase n)) as [->|]; [|done].
      apply falsy_not_own in Hf. congruence.
    + by destruct (own_get_registry_key _ _ _ (file_loaded_keys _) E).
  - unfold FileVariant.listCoworkersTool. by destruct (entries _).
  - unfold FileVariant.tellCoworkerTool. by destruct (negb _).
Qed.

(** X4.  In [src/index.ts] a record, once stored, is never rewritten or
    dropped by tool calls that run one after the other, each to its end
    before the next begins: whatever such calls follow, with whatever
    arguments and answers of the service, the name keeps loading to the
    same record.  (Two creates that overlap at an await are another
    matter, taken up further down.) *)
Theorem file_records_are_write_once :
  forall (ops : list FileVariant.Op) (st : FileVariant.State) (k : string)
         (c : Coworker),
    own_get k (own (FileVariant.loadCoworkers (FileVariant.storageFile st))) = Some c ->
    own_get k (own (FileVariant.loadCoworkers
                      (FileVariant.storageFile (FileVariant.run ops st))))
    = Some c.
Proof.
  unfold FileVariant.run.
  induction ops as [|op ops IH]; intros st k c E; [done|].
  simpl. by apply IH, file_exec_keeps_records.
Qed.

Lemma loaded_records_stored rows k c :
  own_get k (own (TableVariant.normalize_rows rows)) = Some c -> stored c = c.
Proof.
  intros E.
  assert (Hne : k <> "__proto__"%string)
    by (by destruct (own_get_registry_key _ _ _ (table_loaded_keys rows) E)).
  rewrite table_load_assign, assign_all_own_get in E by done. simpl in E.
  destruct (own_get k (rev _)) as [c'|] eqn:E'; [|done]. injection E as <-.
  apply own_get_Some_elem in E'. rewrite <- Permutation_rev in E'.
  apply list_elem_of_fmap in E' as (r & [= _ ->] & _).
  unfold stored, TableVariant.coworker_of_row. simpl. by rewrite or_absent_idem.
Qed.

Lemma own_get_rows_without k d rows :
  toLowerCase d <> k ->
  own_get k (own (TableVariant.normalize_rows (TableVariant.delete_row d rows)))
  = own_get k (own (TableVariant.normalize_rows rows)).
Proof.
  intros Hd. destruct (decide (k = "__proto__"%string)) as [->|Hne].
  { by rewrite !(registry_keys_no_proto _ (table_loaded_keys _)). }
  rewrite !table_load_assign, !assign_all_own_get by done. simpl.
  match goal with
  | |- match ?x with _ => _ end = match ?y with _ => _ end =>
      assert (Heq : x = y); [|by rewrite Heq]
  end.
  unfold TableVariant.delete_row.
  induction rows as [|r rows IH]; [done|].
  rewrite filter_cons. destruct (decide (TableVariant.name r <> d)) as [Hr|Hr].
  - simpl. rewrite !own_get_app, IH. done.
  - simpl. rewrite own_get_app, IH. clear IH. apply dec_stable in Hr. subst d.
    destruct (own_get k (rev _)); [done|]. simpl.
    destruct (String.eqb_spec k (toLowerCase (TableVariant.name r))); congruence.
Qed.

(** X5.  In the SQLite variant a stored record changes only by the
    removal of its own name: after any other tool call that runs alone,
    from its beginning to its end with no other call in between, the name
    loads to the same record as before.  (A create that overlaps another
    create of the same name at an await replaces the row: the save is an
    INSERT OR REPLACE.) *)
Theorem table_records_are_write_once :
  forall (op : TableVariant.Op) (st : TableVariant.State)
         (rows : list TableVariant.Row) (k : string) (c : Coworker),
    TableVariant.getDb (TableVariant.db st) = Some rows ->
    own_get k (own (TableVariant.normalize_rows rows)) = Some c ->
    (forall n, op = TableVariant.remove_coworker n -> toLowerCase n <> k) ->
    exists rows',
      TableVariant.getDb (TableVariant.db (TableVariant.after (TableVariant.exec op st)))
        = Some rows' /\
      own_get k (own (TableVariant.normalize_rows rows')) = Some c.
Proof.
  intros op st rows k c Hdb E Hop.
  pose proof (own_get_registry_key _ _ _ (table_loaded_keys rows) E) as [_ Hne].
  destruct op as [n a p ctx svc| |n m|n]; simpl.
  - unfold TableVariant.createCoworkerTool. rewrite Hdb. cbn zeta.
    destruct (truthy _) eqn:Hf; [by exists rows|].
    destruct (or_absent _); [|by exists rows].
    eexists. split; [reflexivity|].
    rewrite table_reload_own_get by auto with registry.
    rewrite own_get_set by done.
    destruct (String.eqb_spec k (toLowerCase n)) as [->|].
    + apply falsy_not_own in Hf. congruence.
    + rewrite E. f_equal. by eapply loaded_records_stored.
  - unfold TableVariant.listCoworkersTool. rewrite Hdb. cbn zeta.
    destruct (entries _); by exists rows.
  - unfold TableVariant.tellCoworkerTool. rewrite Hdb. cbn zeta.
    destruct (negb _); by exists rows.
  - unfold TableVariant.removeCoworkerTool. rewrite Hdb. cbn zeta.
    destruct (negb _); [by exists rows|].
    eexists. split; [reflexivity|].
    rewrite own_get_rows_without; [done|].
    rewrite toLowerCase_idem. by apply Hop.
Qed.

(** *** Failures and reserved names *)

(** X6.  A tool call that answers AlreadyExists, UpstreamFailure or
    NotFound leaves the store and both liveness maps as they were. *)
Theorem failures_change_nothing :
  (forall (op : FileVariant.Op) (st : FileVariant.State) (kind : Kind) (t : string),
      FileVariant.outcome (FileVariant.exec op st) = Returned kind t ->
      kind <> Done ->
      FileVariant.after (FileVariant.exec op st) = st)
  /\
  (forall (op : TableVariant.Op) (st : TableVariant.State) (kind : Kind) (t : string),
      TableVariant.outcome (TableVariant.exec op st) = Returned kind t ->
      kind <> Done ->
      let st1 := TableVariant.after (TableVariant.exec op st) in
      TableVariant.getDb (TableVariant.db st1) = TableVariant.getDb (TableVariant.db st) /\
      TableVariant.activeSessions st1 = TableVariant.activeSessions st /\
      TableVariant.sessionParents st1 = TableVariant.sessionParents st).
Proof.
  split.
  - intros op st kind t Hout Hkind.
    destruct op as [n a p ctx svc| |n m]; simpl in *.
    + revert Hout. unfold FileVariant.createCoworkerTool.
      destruct (truthy _); [done|]. destruct (or_absent _); [|done].
      cbn [FileVariant.outcome]. intros [= <- _]. done.
    + revert Hout. unfold FileVariant.listCoworkersTool. by destruct (entries _).
    + revert Hout. unfold FileVariant.tellCoworkerTool. by destruct (negb _).
  - intros op st kind t Hout Hkind. cbn zeta.
    destruct op as [n a p ctx svc| |n m|n]; simpl in *.
    + revert Hout. unfold TableVariant.createCoworkerTool.
      destruct (TableVariant.getDb (TableVariant.db st)) eqn:Hdb;
        [|simpl; by rewrite Hdb]. cbn zeta.
      destruct (truthy _); [done|]. destruct (or_absent _); [|done].
      cbn [TableVariant.outcome]. intros [= <- _]. done.
    + revert Hout. unfold TableVariant.listCoworkersTool.
      destruct (TableVariant.getDb (TableVariant.db st)) eqn:Hdb;
        [|simpl; by rewrite Hdb]. by destruct (entries _).
    + revert Hout. unfold TableVariant.tellCoworkerTool.
      destruct (TableVariant.getDb (TableVariant.db st)) eqn:Hdb;
        [|simpl; by rewrite Hdb]. cbn zeta.
      by destruct (negb _).
    + revert Hout. unfold TableVariant.removeCoworkerTool.
      destruct (TableVariant.getDb (TableVariant.db st)) eqn:Hdb;
        [|simpl; by rewrite Hdb]. cbn zeta.
      destruct (negb _); [done|]. cbn [TableVariant.outcome]. intros [= <- _]. done.
Qed.

Lemma truthy_get_constructor o : truthy (get o "constructor") = true.
Proof.
  unfold get. destruct (own_get _ (own o)); [done|]. by destruct (proto o).
Qed.

(** X7.  No coworker can be created under a name that normalizes to
    "constructor" or "__proto__": in every state, whatever is stored,
    create answers AlreadyExists, calls nobody and changes nothing. *)
Theorem reserved_names_cannot_be_created :
  forall (n : string) (a : option string) (p : string) (ctx : ToolContext)
         (svc : Service),
    toLowerCase n = "constructor"%string \/ toLowerCase n = "__proto__"%string ->
    (forall st : FileVariant.State,
        exists t,
          FileVariant.createCoworkerTool n a p ctx svc st
          = FileVariant.mkRun (Returned AlreadyExists t) st [])
    /\
    (forall (st : TableVariant.State) (rows : list TableVariant.Row),
        TableVariant.getDb (TableVariant.db st) = Some rows ->
        exists t,
          TableVariant.createCoworkerTool n a p ctx svc st
          = TableVariant.mkRun (Returned AlreadyExists t)
              (TableVariant.mkState (TableVariant.DbTable rows)
                 (TableVariant.activeSessions st) (TableVariant.sessionParents st))
              []).
Proof.
  intros n a p ctx svc Hn.
  assert (Ht : forall o, truthy (get o (toLowerCase n)) = true).
  { intros o. destruct Hn as [-> | ->];
      [apply truthy_get_constructor|apply truthy_get_proto]. }
  split.
  - intros st. unfold FileVariant.createCoworkerTool. rewrite Ht. eauto.
  - intros st rows Hdb. unfold TableVariant.createCoworkerTool.
    rewrite Hdb. cbn zeta. rewrite Ht. eauto.
Qed.

(** *** remove, and what follows it *)

Lemma deleted_row_is_absent k rows :
  registry_keys (table_records rows) ->
  own_get k (own (TableVariant.normalize_rows (TableVariant.delete_row k rows))) = None.
Proof.
  intros Hk. rewrite table_load_registry by (by apply registry_keys_delete_row).
  simpl. apply own_get_None_keys. unfold table_records. rewrite map_map. simpl.
  intros Hin. apply list_elem_of_fmap in Hin as (r & -> & Hr).
  apply delete_row_spec in Hr as [Hr _]. done.
Qed.

(** X8.  On a table whose rows are stored under registry keys, removing a
    stored coworker frees its name: its session is in neither liveness
    map, tell_coworker no longer finds it, and a new create under the
    name goes through.  (The name "constructor" apart, which
    [Object.prototype] answers for.) *)
Theorem remove_frees_the_name :
  forall (n : string) (st : TableVariant.State) (rows : list TableVariant.Row)
         (c : Coworker),
    TableVariant.getDb (TableVariant.db st) = Some rows ->
    registry_keys (table_records rows) ->
    own_get (toLowerCase n) (own (TableVariant.normalize_rows rows)) = Some c ->
    toLowerCase n <> "constructor"%string ->
    let st1 := TableVariant.after (TableVariant.removeCoworkerTool n st) in
    TableVariant.activeSessions st1 !! sessionId c = None /\
    TableVariant.sessionParents st1 !! sessionId c = None /\
    (forall m, exists t,
        TableVariant.outcome (TableVariant.tellCoworkerTool n m st1) = Returned NotFound t /\
        TableVariant.calls (TableVariant.tellCoworkerTool n m st1) = []) /\
    (forall a p ctx svc sid,
        or_absent (created_id svc) = Some sid ->
        exists t,
          TableVariant.outcome (TableVariant.createCoworkerTool n a p ctx svc st1)
          = Returned Done t).
Proof.
  intros n st rows c Hdb Hk E Hc. cbn zeta.
  pose proof (own_get_registry_key _ _ _ (table_loaded_keys rows) E) as [_ Hp].
  pose proof (deleted_row_is_absent (toLowerCase n) rows Hk) as Habs.
  pose proof (get_absent _ _ (toLowerCase_idem n) Hp Hc Habs) as Hget.
  unfold TableVariant.removeCoworkerTool. rewrite Hdb. cbn zeta.
  rewrite (get_own _ _ _ E).
  cbn [truthy negb get_sessionId map_delete TableVariant.after
       TableVariant.activeSessions TableVariant.sessionParents].
  split; [apply lookup_delete_eq|]. split; [apply lookup_delete_eq|]. split.
  - intros m. unfold TableVariant.tellCoworkerTool.
    cbn [TableVariant.db TableVariant.getDb]. cbn zeta. rewrite Hget. simpl. eauto.
  - intros a p ctx svc sid Hid. unfold TableVariant.createCoworkerTool.
    cbn [TableVariant.db TableVariant.getDb]. cbn zeta. rewrite Hget, Hid. simpl. eauto.
Qed.

(** X9.  remove deletes the row keyed by the normalized name and no
    other: when the coworker is stored under a spelling that is not
    normalized and under no other, remove reports the removal, yet the
    table is as before and the name still loads to the same record. *)
Theorem remove_misses_other_spellings :
  forall (n : string) (st : TableVariant.State) (rows : list TableVariant.Row)
         (c : Coworker),
    TableVariant.getDb (TableVariant.db st) = Some rows ->
    own_get (toLowerCase n) (own (TableVariant.normalize_rows rows)) = Some c ->
    (forall r, r ∈ rows -> TableVariant.name r <> toLowerCase n) ->
    TableVariant.removeCoworkerTool n st
    = TableVariant.mkRun
        (Returned Done ("Removed coworker " +:+ dquote +:+ toLowerCase n +:+ dquote
                          +:+ " (" +:+ agentType c +:+ ")"))
        (TableVariant.mkState (TableVariant.DbTable rows)
           (delete (sessionId c) (TableVariant.activeSessions st))
           (delete (sessionId c) (TableVariant.sessionParents st)))
        [].
Proof.
  intros n st rows c Hdb E Hrows.
  unfold TableVariant.removeCoworkerTool. rewrite Hdb. cbn zeta.
  rewrite (get_own _ _ _ E). simpl.
  unfold TableVariant.delete_row. by rewrite filter_all.
Qed.

(** *** Liveness across the life of the process *)

(** X10.  Liveness is not stored: in a process that has not created
    anything yet, the text list_coworkers answers with is made of lines
    separated by line feeds, and every record that loads from the store
    (from the table: when it can be opened) has its line among them, with
    the tag idle. *)
Theorem fresh_process_lists_idle :
  (forall (f : FileVariant.FileState) (k : string) (c : Coworker),
      own_get k (own (FileVariant.loadCoworkers f)) = Some c ->
      exists lines,
        FileVariant.outcome (FileVariant.listCoworkersTool (FileVariant.initial f))
          = Returned Done (Listing.newline_separated lines) /\
        Listing.line k (agentType c) (sessionId c) "idle" ∈ lines)
  /\
  (forall (d : TableVariant.DbState) (m : CoworkerStorage) (k : string) (c : Coworker),
      TableVariant.loadCoworkers d = Some m ->
      own_get k (own m) = Some c ->
      exists lines,
        TableVariant.outcome (TableVariant.listCoworkersTool (TableVariant.initial d))
          = Returned Done (Listing.newline_separated lines) /\
        Listing.line k (agentType c) (sessionId c) "idle" ∈ lines).
Proof.
  split.
  - intros f k c E. apply own_get_Some_elem in E. rewrite <- entries_perm in E.
    unfold FileVariant.listCoworkersTool, FileVariant.initial.
    cbn [FileVariant.storageFile FileVariant.activeSessions].
    destruct (entries _) as [|e es]; [by apply elem_of_nil in E|].
    eexists. split; [by rewrite join_newline_separated|].
    by apply (list_elem_of_fmap_2 (list_line ∅)) in E.
  - intros d m k c Hload E. unfold TableVariant.loadCoworkers in Hload.
    destruct (TableVariant.getDb d) as [rows|] eqn:Hdb; [|done]. injection Hload as <-.
    apply own_get_Some_elem in E. rewrite <- entries_perm in E.
    unfold TableVariant.listCoworkersTool, TableVariant.initial.
    cbn [TableVariant.db TableVariant.activeSessions]. rewrite Hdb. cbn zeta.
    cbn [TableVariant.activeSessions].
    destruct (entries _) as [|e es]; [by apply elem_of_nil in E|].
    eexists. split; [by rewrite join_newline_separated|].
    by apply (list_elem_of_fmap_2 (list_line ∅)) in E.
Qed.

(** X11.  [src/index.ts] never clears a liveness entry: the sessions
    that are keys of the two liveness maps stay keys through every later
    tool call, so a coworker listed as active is not listed as idle again
    in that process. *)
Theorem file_sessions_stay_active :
  forall (ops : list FileVariant.Op) (st : FileVariant.State),
    dom (FileVariant.activeSessions st)
      ⊆ dom (FileVariant.activeSessions (FileVariant.run ops st)) /\
    dom (FileVariant.sessionParents st)
      ⊆ dom (FileVariant.sessionParents (FileVariant.run ops st)).
Proof.
  unfold FileVariant.run. induction ops as [|op ops IH]; intros st; [done|].
  simpl. destruct (IH (FileVariant.after (FileVariant.exec op st))) as [IHa IHp].
  destruct (file_exec_liveness_effect op st)
    as [[Ha Hp]|(sid & name & parent & Ha & Hp)].
  - rewrite Ha in IHa. by rewrite Hp in IHp.
  - rewrite Ha, dom_insert_L in IHa. rewrite Hp, dom_insert_L in IHp.
    split; (etrans; [apply union_subseteq_r|done]).
Qed.

(** *** The [/coworkers] command *)

Lemma command_line_bulleted act e :
  Command.command_line act e = Listing.bulleted (Listing.line_of act e).
Proof.
  rewrite <- list_line_line_of. reflexivity.
Qed.

Lemma command_text_of_listing act o :
  Command.command_text act o
  = match entries o with
    | [] => "No coworkers found"%string
    | _ :: _ =>
        "**Coworkers:**" +:+
          String "010"%char
            (Listing.newline_separated
               (map (fun e => Listing.bulleted (Listing.line_of act e)) (entries o)))
    end.
Proof.
  unfold Command.command_text. destruct (entries o) as [|e es]; [done|].
  rewrite join_newline_separated, (map_ext _ _ (command_line_bulleted act)).
  reflexivity.
Qed.

(** X12.  The [/coworkers] command shows what list_coworkers shows.  Both
    go through the loaded records in one and the same order, each record
    once.  With no record both answer "No coworkers found".  Otherwise
    list_coworkers answers with the lines of the records, separated by
    line feeds, and the command with the heading "**Coworkers:**", a line
    feed, and the same lines in the same order, each after a bullet and a
    space.  The command calls nobody and changes nothing; where the table
    cannot be opened, both throw. *)
Theorem command_follows_list :
  (forall st : FileVariant.State,
      FileVariant.calls (Command.file_coworkers st) = [] /\
      FileVariant.after (Command.file_coworkers st) = st /\
      exists es,
        Permutation es (own (FileVariant.loadCoworkers (FileVariant.storageFile st))) /\
        FileVariant.outcome (FileVariant.listCoworkersTool st)
        = Returned Done
            match es with
            | [] => "No coworkers found"
            | _ :: _ =>
                Listing.newline_separated
                  (map (Listing.line_of (FileVariant.activeSessions st)) es)
            end /\
        FileVariant.outcome (Command.file_coworkers st)
        = Returned Done
            match es with
            | [] => "No coworkers found"
            | _ :: _ =>
                "**Coworkers:**" +:+
                  String "010"%char
                    (Listing.newline_separated
                       (map (fun e =>
                               Listing.bulleted
                                 (Listing.line_of (FileVariant.activeSessions st) e))
                            es))
            end)
  /\
  (forall st : TableVariant.State,
      TableVariant.calls (Command.table_coworkers st) = [] /\
      TableVariant.after (Command.table_coworkers st)
        = TableVariant.after (TableVariant.listCoworkersTool st) /\
      match TableVariant.getDb (TableVariant.db st) with
      | None =>
          TableVariant.outcome (TableVariant.listCoworkersTool st) = Threw /\
          TableVariant.outcome (Command.table_coworkers st) = Threw
      | Some rows =>
          exists es,
            Permutation es (own (TableVariant.normalize_rows rows)) /\
            TableVariant.outcome (TableVariant.listCoworkersTool st)
            = Returned Done
                match es with
                | [] => "No coworkers found"
                | _ :: _ =>
                    Listing.newline_separated
                      (map (Listing.line_of (TableVariant.activeSessions st)) es)
                end /\
            TableVariant.outcome (Command.table_coworkers st)
            = Returned Done
                match es with
                | [] => "No coworkers found"
                | _ :: _ =>
                    "**Coworkers:**" +:+
                      String "010"%char
                        (Listing.newline_separated
                           (map (fun e =>
                                   Listing.bulleted
                                     (Listing.line_of (TableVariant.activeSessions st) e))
                                es))
                end
      end).
Proof.
  split.
  - intros st. split; [done|]. split; [done|].
    unfold Command.file_coworkers, FileVariant.listCoworkersTool.
    cbn [FileVariant.outcome]. rewrite command_text_of_listing.
    destruct (list_text (FileVariant.activeSessions st)
                (FileVariant.loadCoworkers (FileVariant.storageFile st)))
      as (es & Hp & -> & Ht).
    exists es. split; [done|]. destruct es; [done|].
    cbn [FileVariant.outcome]. by rewrite Ht.
  - intros st. unfold Command.table_coworkers, TableVariant.listCoworkersTool.
    destruct (TableVariant.getDb _) as [rows|]; [|done].
    cbn zeta. cbn [TableVariant.activeSessions]. rewrite command_text_of_listing.
    destruct (list_text (TableVariant.activeSessions st)
                (TableVariant.normalize_rows rows))
      as (es & Hp & -> & Ht).
    split; [by destruct es|]. split; [by destruct es|].
    exists es. split; [done|]. destruct es; [done|].
    cbn [TableVariant.outcome]. by rewrite Ht.
Qed.

(** *** The [config] hook *)

Lemma concat_replicate_comm {A} (t : list A) n :
  concat (replicate n t) ++ t = t ++ concat (replicate n t).
Proof.
  induction n as [|n IH]; simpl; [by rewrite app_nil_r|].
  by rewrite <- app_assoc, IH.
Qed.

Lemma push_primary_tools_iter {U} (names : list string) (input : ConfigHook.ServerConfig U) n :
  Nat.iter (S n) (ConfigHook.push_primary_tools names) input
  = ConfigHook.mkServerConfig
      (Some (ConfigHook.mkExperimental
               (Some (default [] (ConfigHook.experimental input
                                    ≫= ConfigHook.primary_tools)
                        ++ concat (replicate (S n) names)))
               (default [] (ConfigHook.experimental_rest
                              <$> ConfigHook.experimental input))))
      (ConfigHook.config_rest input).
Proof.
  induction n as [|n IH].
  - simpl. unfold ConfigHook.push_primary_tools. rewrite app_nil_r.
    destruct input as [[[[tools|] rest]|] others]; reflexivity.
  - change (Nat.iter (S (S n)) ?f ?x) with (f (Nat.iter (S n) f x)).
    rewrite IH. unfold ConfigHook.push_primary_tools at 1. simpl.
    rewrite <- !app_assoc. do 4 f_equal.
    rewrite app_assoc, concat_replicate_comm, <- app_assoc. done.
Qed.

(** X13.  The [config] hook keeps all it finds and appends: it creates
    [experimental] and [primary_tools] when they are missing, leaves the
    tools already listed in place and in order, leaves every other key of
    the configuration alone, and adds the names of the tools the variant
    registers at the end.  It does not look for them first: run [n + 1]
    times, it lists them [n + 1] times. *)
Theorem config_hook_appends :
  forall (U : Type) (input : ConfigHook.ServerConfig U) (n : nat),
    let listed := default [] (ConfigHook.experimental input ≫= ConfigHook.primary_tools) in
    let others := default [] (ConfigHook.experimental_rest
                                <$> ConfigHook.experimental input) in
    Nat.iter (S n) ConfigHook.file_config input
    = ConfigHook.mkServerConfig
        (Some (ConfigHook.mkExperimental
                 (Some (listed ++ concat (replicate (S n) ConfigHook.file_tools)))
                 others))
        (ConfigHook.config_rest input)
    /\
    Nat.iter (S n) ConfigHook.table_config input
    = ConfigHook.mkServerConfig
        (Some (ConfigHook.mkExperimental
                 (Some (listed ++ concat (replicate (S n) ConfigHook.table_tools)))
                 others))
        (ConfigHook.config_rest input).
Proof.
  intros U input n. cbn zeta. split; apply push_primary_tools_iter.
Qed.

(** *** The table under the tools *)

Lemma NoDup_names_filter (P : TableVariant.Row -> Prop)
    `{!forall x, Decision (P x)} rows :
  NoDup (map TableVariant.name rows) ->
  NoDup (map TableVariant.name (filter P rows)).
Proof.
  induction rows as [|r rows IH]; [done|]. simpl.
  rewrite NoDup_cons. intros [Hnot Hnd]. rewrite filter_cons.
  destruct (decide (P r)); [|by apply IH]. simpl. apply NoDup_cons. split; [|by apply IH].
  intros Hin. apply Hnot. apply list_elem_of_fmap in Hin as (x & -> & Hx).
  apply list_elem_of_filter in Hx as [_ Hx].
  by apply (list_elem_of_fmap_2 TableVariant.name).
Qed.

Lemma insert_or_replace_names r rows :
  NoDup (map TableVariant.name rows) ->
  NoDup (map TableVariant.name (TableVariant.insert_or_replace r rows)).
Proof.
  intros Hnd. unfold TableVariant.insert_or_replace. rewrite map_app. simpl.
  apply NoDup_app. split; [by apply NoDup_names_filter|]. split; [|apply NoDup_singleton].
  intros x Hx Hx'. apply list_elem_of_singleton in Hx'. subst x.
  apply list_elem_of_fmap in Hx as (y & Hy & Hin).
  apply list_elem_of_filter in Hin as [Hne _]. by apply Hne.
Qed.

Lemma saveCoworkers_names rows o :
  NoDup (map TableVariant.name rows) ->
  NoDup (map TableVariant.name (TableVariant.saveCoworkers rows o)).
Proof.
  unfold TableVariant.saveCoworkers. revert rows.
  induction (entries o) as [|e es IH]; intros rows Hnd; [done|].
  simpl. by apply IH, insert_or_replace_names.
Qed.

(** The tools keep [name] a key of the table: from rows with
    distinct names, every tool call, whatever its arguments and the
    answers of the service, leaves rows with distinct names. *)
Lemma table_names_stay_distinct :
  forall (ops : list TableVariant.Op) (st : TableVariant.State)
         (rows : list TableVariant.Row),
    TableVariant.getDb (TableVariant.db st) = Some rows ->
    NoDup (map TableVariant.name rows) ->
    exists rows',
      TableVariant.getDb (TableVariant.db (TableVariant.run ops st)) = Some rows' /\
      NoDup (map TableVariant.name rows').
Proof.
  unfold TableVariant.run.
  induction ops as [|op ops IH]; intros st rows Hdb Hnd; [by exists rows|].
  simpl.
  assert (Hstep : exists rows1,
             TableVariant.getDb
               (TableVariant.db (TableVariant.after (TableVariant.exec op st)))
               = Some rows1 /\ NoDup (map TableVariant.name rows1)).
  { destruct op as [n a p ctx svc| |n m|n]; simpl.
    - unfold TableVariant.createCoworkerTool. rewrite Hdb. cbn zeta.
      destruct (truthy _); [by exists rows|].
      destruct (or_absent _); [|by exists rows].
      eexists. split; [reflexivity|]. by apply saveCoworkers_names.
    - unfold TableVariant.listCoworkersTool. rewrite Hdb. cbn zeta.
      destruct (entries _); by exists rows.
    - unfold TableVariant.tellCoworkerTool. rewrite Hdb. cbn zeta.
      destruct (negb _); by exists rows.
    - unfold TableVariant.removeCoworkerTool. rewrite Hdb. cbn zeta.
      destruct (negb _); [by exists rows|].
      eexists. split; [reflexivity|]. by apply NoDup_names_filter. }
  destruct Hstep as (rows1 & Hdb1 & Hnd1). by eapply IH.
Qed.

(** X14.  Saving a mapping into the table twice is the same as saving it
    once: after the first save, the second leaves the rows, and their
    order, as they are. *)
Theorem table_save_is_idempotent :
  forall (rows : list TableVariant.Row) (o : CoworkerStorage),
    registry_keys (own o) ->
    TableVariant.saveCoworkers (TableVariant.saveCoworkers rows o) o
    = TableVariant.saveCoworkers rows o.
Proof.
  intros rows o Hk. rewrite !table_save by done. rewrite filter_app.
  rewrite list_filter_filter_l by done.
  rewrite (filter_none _ (map _ _)); [by rewrite app_nil_r|].
  intros r Hr Hnot. apply Hnot. apply list_elem_of_fmap in Hr as (e & -> & He).
  apply registry_keys_entries in Hk as [_ Hks]. rewrite Forall_forall in Hks.
  assert (Hin : fst e ∈ map fst (entries o)) by (by apply list_elem_of_fmap_2).
  simpl. by destruct (Hks _ Hin) as [-> _].
Qed.

(** *** What loading makes of the spellings in the store *)

Lemma last_spelled_rev k data :
  own_get k (rev (map (fun e => (toLowerCase (fst e), snd e)) data))
  = Spelling.last_spelled k data.
Proof.
  induction data as [|e data IH]; [done|]. simpl.
  rewrite own_get_app, IH. by destruct (Spelling.last_spelled k data).
Qed.

Lemma last_spelled_app k l1 l2 :
  Spelling.last_spelled k (l1 ++ l2)
  = match Spelling.last_spelled k l2 with
    | Some c => Some c
    | None => Spelling.last_spelled k l1
    end.
Proof.
  induction l1 as [|e l1 IH]; simpl.
  - by destruct (Spelling.last_spelled k l2).
  - rewrite IH. by destruct (Spelling.last_spelled k l2).
Qed.

Lemma last_spelled_None k data :
  Spelling.last_spelled k data = None <->
  forall e, e ∈ data -> toLowerCase (fst e) <> k.
Proof.
  induction data as [|e data IH]; simpl.
  - split; [|done]. intros _ e He. by apply elem_of_nil in He.
  - destruct (Spelling.last_spelled k data) eqn:E.
    + split; [done|]. intros Hall. exfalso.
      destruct IH as [_ IH]. discriminate IH. intros x Hx. apply Hall. by right.
    + destruct IH as [IH _]. specialize (IH eq_refl).
      destruct (String.eqb_spec k (toLowerCase (fst e))) as [->|Hne].
      * split; [done|]. intros Hall. exfalso. by apply (Hall e); [left|].
      * split; [|done]. intros _ x Hx. apply elem_of_cons in Hx as [->|Hx];
          [congruence|by apply IH].
Qed.

Lemma file_load_last_spelled data k :
  k <> "__proto__"%string ->
  own_get k (own (FileVariant.loadCoworkers (FileVariant.FileJson data)))
  = Spelling.last_spelled k data.
Proof.
  intros Hne. rewrite file_load_assign, assign_all_own_get by done. simpl.
  rewrite last_spelled_rev. by destruct (Spelling.last_spelled k data).
Qed.

Lemma table_load_last_spelled rows k :
  k <> "__proto__"%string ->
  own_get k (own (TableVariant.normalize_rows rows))
  = Spelling.last_spelled k (table_records rows).
Proof.
  intros Hne. rewrite table_load_assign, assign_all_own_get by done. simpl.
  rewrite <- last_spelled_rev. unfold table_records. rewrite map_map. simpl.
  by destruct (own_get k _).
Qed.

(** X15.  Loading folds the spellings of a name into one: a name other
    than [__proto__] loads to the record of the last entry of the store
    whose key normalizes to it.  So every entry of the store is found
    under its normalized name, by its own record or by that of a later
    spelling, and nothing is found under a name no key normalizes to. *)
Theorem load_takes_last_spelling :
  (forall (data : list (string * Coworker)) (k : string),
      k <> "__proto__"%string ->
      own_get k (own (FileVariant.loadCoworkers (FileVariant.FileJson data)))
      = Spelling.last_spelled k data)
  /\
  (forall (rows : list TableVariant.Row) (k : string),
      k <> "__proto__"%string ->
      own_get k (own (TableVariant.normalize_rows rows))
      = Spelling.last_spelled k (table_records rows))
  /\
  (forall (data : list (string * Coworker)) (e : string * Coworker),
      e ∈ data -> is_Some (Spelling.last_spelled (toLowerCase (fst e)) data))
  /\
  (forall (data : list (string * Coworker)) (k : string),
      (forall e, e ∈ data -> toLowerCase (fst e) <> k) ->
      Spelling.last_spelled k data = None).
Proof.
  split; [exact file_load_last_spelled|]. split; [exact table_load_last_spelled|].
  split.
  - intros data e He.
    destruct (Spelling.last_spelled (toLowerCase (fst e)) data) eqn:E; [by eexists|].
    exfalso. by eapply (proj1 (last_spelled_None _ _) E e He).
  - intros data k. apply last_spelled_None.
Qed.

(** *** Creates that overlap *)

(** The two ends make up the tool: run one after the other on the same
    state, with the answer of the service in between, they are
    [createCoworkerTool]. *)
Lemma file_create_in_two_steps n a p ctx svc st :
  FileVariant.createCoworkerTool n a p ctx svc st
  = match Overlap.file_create_begin n st with
    | inr early => early
    | inl coworkers =>
        let create_call :=
          SessionCreate (Some (sessionID ctx))
                        (n +:+ " (" +:+ default "code"%string a +:+ ")") in
        match or_absent (created_id svc) with
        | None =>
            FileVariant.mkRun
              (Returned UpstreamFailure "Error: Failed to create session") st
              [create_call]
        | Some sid =>
            let r := Overlap.file_create_end coworkers n a ctx svc sid st in
            FileVariant.mkRun (FileVariant.outcome r) (FileVariant.after r)
              [create_call; SessionPrompt (Some sid) p (Some (default "code"%string a))]
        end
    end.
Proof.
  unfold FileVariant.createCoworkerTool, Overlap.file_create_begin.
  destruct (truthy _); [done|]. by destruct (or_absent _).
Qed.

Lemma table_create_in_two_steps n a p ctx svc st rows :
  TableVariant.getDb (TableVariant.db st) = Some rows ->
  let opened := TableVariant.mkState (TableVariant.DbTable rows)
                  (TableVariant.activeSessions st) (TableVariant.sessionParents st) in
  TableVariant.createCoworkerTool n a p ctx svc st
  = match Overlap.table_create_begin n rows with
    | inr (kind, text) => TableVariant.mkRun (Returned kind text) opened []
    | inl coworkers =>
        let create_call :=
          SessionCreate None (n +:+ " (" +:+ default "general"%string a +:+ ")") in
        match or_absent (created_id svc) with
        | None =>
            TableVariant.mkRun
              (Returned UpstreamFailure "Error: Failed to create session") opened
              [create_call]
        | Some sid =>
            let r := Overlap.table_create_end coworkers n a ctx svc sid opened in
            TableVariant.mkRun (TableVariant.outcome r) (TableVariant.after r)
              [create_call;
               SessionPrompt (Some sid)
                 ("IMPORTANT: your name is '" +:+ n +:+ "'. " +:+ p)
                 (Some (default "general"%string a))]
        end
    end.
Proof.
  intros Hdb. cbn zeta.
  unfold TableVariant.createCoworkerTool, Overlap.table_create_begin. rewrite Hdb.
  cbn zeta. destruct (truthy _); [done|]. by destruct (or_absent _).
Qed.

(** X16.  [src/index.ts] loses a record when two creates overlap: if a
    create of B loads the mapping before a create of A, of another name,
    has saved, and saves after it, then A's create has answered with
    success and its session is in the liveness map, but the store holds
    B's record and not A's. *)
Theorem overlapping_creates_lose_a_record :
  forall (nA nB : string) (aA aB : option string) (ctxA ctxB : ToolContext)
         (svcA svcB : Service) (sidA sidB : string) (st : FileVariant.State)
         (loadedA loadedB : CoworkerStorage),
    toLowerCase nA <> toLowerCase nB ->
    sidA <> sidB ->
    Overlap.file_create_begin nA st = inl loadedA ->
    Overlap.file_create_begin nB st = inl loadedB ->
    let rA := Overlap.file_create_end loadedA nA aA ctxA svcA sidA st in
    let rB := Overlap.file_create_end loadedB nB aB ctxB svcB sidB (FileVariant.after rA) in
    let final := FileVariant.loadCoworkers (FileVariant.storageFile (FileVariant.after rB)) in
    (exists t, FileVariant.outcome rA = Returned Done t) /\
    FileVariant.activeSessions (FileVariant.after rB) !! sidA = Some (toLowerCase nA) /\
    own_get (toLowerCase nA) (own final) = None /\
    own_get (toLowerCase nB) (own final)
      = Some (mkCoworker sidB (default "code"%string aB) (clock svcB)
                         (Some (sessionID ctxB))).
Proof.
  intros nA nB aA aB ctxA ctxB svcA svcB sidA sidB st loadedA loadedB Hn Hs.
  unfold Overlap.file_create_begin.
  destruct (truthy (get _ (toLowerCase nA))) eqn:HfA; [done|]. intros [= <-].
  destruct (truthy (get _ (toLowerCase nB))) eqn:HfB; [done|]. intros [= <-].
  cbn zeta. unfold Overlap.file_create_end.
  cbn [FileVariant.after FileVariant.outcome FileVariant.storageFile
       FileVariant.activeSessions].
  split; [by eexists|]. split.
  { rewrite lookup_insert_ne by done. apply lookup_insert_eq. }
  rewrite !file_reload_own_get by auto with registry.
  rewrite !own_get_set by (by eapply falsy_not_proto).
  rewrite String.eqb_refl. split; [|done].
  destruct (String.eqb_spec (toLowerCase nA) (toLowerCase nB)); [done|].
  by apply falsy_not_own in HfA.
Qed.

Lemma last_spelled_unique k0 c l :
  NoDup (map (fun e => toLowerCase (fst e)) l) ->
  (k0, c) ∈ l -> Spelling.last_spelled (toLowerCase k0) l = Some c.
Proof.
  induction l as [|e l IH]; simpl; [by rewrite elem_of_nil|].
  rewrite NoDup_cons, elem_of_cons. intros [Hnot Hnd] [<-|Hin].
  - simpl. destruct (Spelling.last_spelled _ l) eqn:E; [|by rewrite String.eqb_refl].
    exfalso. assert (Hs : Spelling.last_spelled (toLowerCase k0) l <> None) by congruence.
    apply Hs, last_spelled_None. intros x Hx Heq. apply Hnot. simpl. rewrite <- Heq.
    by apply (list_elem_of_fmap_2 (fun e => toLowerCase (fst e))).
  - by rewrite IH.
Qed.

Lemma coworker_of_row_of_entry e :
  (TableVariant.name (TableVariant.row_of_entry e),
   TableVariant.coworker_of_row (TableVariant.row_of_entry e))
  = (toLowerCase (fst e), stored (snd e)).
Proof.
  destruct e as [k c]. unfold TableVariant.coworker_of_row, stored. simpl.
  by rewrite or_absent_idem.
Qed.

(** X17.  The SQLite variant does not lose it: in the same overlap, with
    the row-by-row save, the table ends up holding both records. *)
Theorem overlapping_creates_keep_both_rows :
  forall (nA nB : string) (aA aB : option string) (ctxA ctxB : ToolContext)
         (svcA svcB : Service) (sidA sidB : string) (st : TableVariant.State)
         (rows : list TableVariant.Row) (loadedA loadedB : CoworkerStorage),
    toLowerCase nA <> toLowerCase nB ->
    TableVariant.getDb (TableVariant.db st) = Some rows ->
    Overlap.table_create_begin nA rows = inl loadedA ->
    Overlap.table_create_begin nB rows = inl loadedB ->
    let rA := Overlap.table_create_end loadedA nA aA ctxA svcA sidA st in
    let rB := Overlap.table_create_end loadedB nB aB ctxB svcB sidB (TableVariant.after rA) in
    exists final,
      TableVariant.loadCoworkers (TableVariant.db (TableVariant.after rB)) = Some final /\
      own_get (toLowerCase nA) (own final)
        = Some (mkCoworker sidA (default "general"%string aA) (clock svcA)
                           (or_absent (Some (sessionID ctxA)))) /\
      own_get (toLowerCase nB) (own final)
        = Some (mkCoworker sidB (default "general"%string aB) (clock svcB)
                           (or_absent (Some (sessionID ctxB)))).
Proof.
  intros nA nB aA aB ctxA ctxB svcA svcB sidA sidB st rows loadedA loadedB Hn Hdb.
  unfold Overlap.table_create_begin.
  destruct (truthy (get _ (toLowerCase nA))) eqn:HfA; [done|]. intros [= <-].
  destruct (truthy (get _ (toLowerCase nB))) eqn:HfB; [done|]. intros [= <-].
  cbn zeta. unfold Overlap.table_create_end. rewrite Hdb.
  cbn [TableVariant.after TableVariant.db TableVariant.getDb TableVariant.loadCoworkers].
  eexists. split; [reflexivity|].
  set (L := TableVariant.normalize_rows rows) in *.
  set (recA := mkCoworker sidA (default "general"%string aA) (clock svcA)
                          (Some (sessionID ctxA))).
  set (recB := mkCoworker sidB (default "general"%string aB) (clock svcB)
                          (Some (sessionID ctxB))).
  assert (HpA : toLowerCase nA <> "__proto__"%string) by (by eapply falsy_not_proto).
  assert (HpB : toLowerCase nB <> "__proto__"%string) by (by eapply falsy_not_proto).
  assert (HkL : registry_keys (own L)) by apply table_loaded_keys.
  assert (HkA : registry_keys (own (set L (toLowerCase nA) recA))) by auto with registry.
  assert (HkB : registry_keys (own (set L (toLowerCase nB) recB))) by auto with registry.
  rewrite !table_reload_own_get by done.
  rewrite !own_get_set by done. rewrite String.eqb_refl. split; [|done].
  destruct (String.eqb_spec (toLowerCase nA) (toLowerCase nB)); [done|].
  rewrite (falsy_not_own _ _ HfA).
  rewrite table_load_last_spelled by done.
  rewrite table_save by done. rewrite filter_app.
  unfold table_records. rewrite map_app, last_spelled_app.
  fold (table_records (filter (fun x => TableVariant.name x
            ∉ map fst (entries (set L (toLowerCase nB) recB)))
          (map TableVariant.row_of_entry (entries (set L (toLowerCase nA) recA))))).
  rewrite <- (toLowerCase_idem nA) at 1.
  rewrite (last_spelled_unique (toLowerCase nA) (stored recA)); [done| |].
  - unfold table_records. rewrite map_map. simpl.
    assert (Hnames : NoDup (map TableVariant.name
              (map TableVariant.row_of_entry (entries (set L (toLowerCase nA) recA))))).
    { rewrite map_map. simpl.
      apply registry_keys_entries in HkA as [Hnd Hks].
      rewrite (map_ext_Forall _ fst); [done|].
      apply Forall_forall. intros e He. rewrite Forall_forall in Hks.
      apply Hks. by apply (list_elem_of_fmap_2 fst) in He. }
    apply (NoDup_names_filter
             (fun x => TableVariant.name x
                         ∉ map fst (entries (set L (toLowerCase nB) recB)))) in Hnames.
    rewrite (map_ext_Forall _ TableVariant.name); [done|].
    apply Forall_forall. intros r Hr.
    apply list_elem_of_filter in Hr as [_ Hr].
    apply list_elem_of_fmap in Hr as (e & -> & He). simpl. apply toLowerCase_idem.
  - unfold table_records.
    apply (list_elem_of_fmap_2'
             _ _ (TableVariant.row_of_entry (toLowerCase nA, recA))).
    + apply list_elem_of_filter. split.
      * simpl. rewrite toLowerCase_idem, (entries_perm _), set_keys.
        rewrite (falsy_not_own _ _ HfB).
        destruct (String.eqb_spec (toLowerCase nB) "__proto__"); [done|].
        rewrite elem_of_app, list_elem_of_singleton.
        intros [Hin|?]; [|done].
        by apply (own_get_None_keys (toLowerCase nA) (own L));
          [apply (falsy_not_own _ _ HfA)|].
      * apply (list_elem_of_fmap_2 TableVariant.row_of_entry).
        rewrite (entries_perm _). apply own_get_Some_elem.
        rewrite own_get_set by done. by rewrite String.eqb_refl.
    + rewrite coworker_of_row_of_entry. simpl. by rewrite toLowerCase_idem.
Qed.

(** *** The path of the store *)

Lemma getStorageFile_cached path_join file responses :
  file <> EmptyString ->
  StoragePath.getStorageFile_calls path_join (Some file) responses
  = (replicate (length responses) (Some file), Some file).
Proof.
  intros Hfile. induction responses as [|r responses IH]; [done|].
  simpl. unfold StoragePath.getStorageFile at 1. simpl.
  destruct (String.eqb_spec file ""); [done|]. by rewrite IH.
Qed.

(** X18.  [getStorageFile] settles the path once: while the host gives no
    answer it throws and settles nothing; the first answer fixes the path
    to [coworkers.json] in the configuration directory of that answer;
    every later call returns that path, whatever the host answers then. *)
Theorem storage_path_is_settled_once :
  forall (path_join : string -> string -> string) (failures : nat)
         (config : string) (later : list (option string)),
    path_join config "coworkers.json" <> EmptyString ->
    StoragePath.getStorageFile_calls path_join None
      (replicate failures None ++ Some config :: later)
    = (replicate failures None
         ++ replicate (S (length later)) (Some (path_join config "coworkers.json")),
       Some (path_join config "coworkers.json")).
Proof.
  intros path_join failures config later Hfile.
  induction failures as [|n IH]; simpl.
  - by rewrite getStorageFile_cached.
  - by rewrite IH.
Qed.

(** *** These properties at work on concrete calls *)

Lemma create_stores_the_record_witness :
  get (FileVariant.loadCoworkers
         (FileVariant.storageFile
            (FileVariant.after
               (FileVariant.createCoworkerTool "Bob" None "hi" Sample.caller
                  Sample.first_session (FileVariant.initial FileVariant.FileMissing)))))
      "bob"
  = JsCoworker Sample.bob
  /\
  exists stored_map,
    TableVariant.loadCoworkers
      (TableVariant.db
         (TableVariant.after
            (TableVariant.createCoworkerTool "Bob" None "hi" Sample.caller
               Sample.first_session (TableVariant.initial TableVariant.DbMissing))))
    = Some stored_map /\
    get stored_map "bob"
    = JsCoworker (mkCoworker "ses_1" "general" "2026-01-01T00:00:00.000Z"
                             (Some "ses_caller"%string)).
Proof.
  destruct (create_stores_the_record "Bob" None "hi" Sample.caller Sample.first_session)
    as [Hfile Htable].
  split.
  - destruct (Hfile (FileVariant.initial FileVariant.FileMissing) _ eq_refl)
      as (sid & Hsid & Hget & _).
    injection Hsid as <-. exact Hget.
  - destruct (Htable (TableVariant.initial TableVariant.DbMissing) _ eq_refl)
      as (sid & m & Hsid & Hload & Hget & _).
    injection Hsid as <-. exists m. split; [exact Hload|exact Hget].
Defined.

Lemma create_then_list_witness :
  (exists lines,
      FileVariant.outcome
        (FileVariant.listCoworkersTool
           (FileVariant.after
              (FileVariant.createCoworkerTool "Bob" None "hi" Sample.caller
                 Sample.first_session (FileVariant.initial FileVariant.FileMissing))))
      = Returned Done (Listing.newline_separated lines) /\
      Listing.line "bob" "code" "ses_1" "active" ∈ lines)
  /\
  (exists lines,
      TableVariant.outcome
        (TableVariant.listCoworkersTool
           (TableVariant.after
              (TableVariant.createCoworkerTool "Bob" None "hi" Sample.caller
                 Sample.first_session (TableVariant.initial TableVariant.DbMissing))))
      = Returned Done (Listing.newline_separated lines) /\
      Listing.line "bob" "general" "ses_1" "active" ∈ lines).
Proof.
  destruct (create_then_list "Bob" None "hi" Sample.caller Sample.first_session)
    as [Hfile Htable].
  split.
  - destruct (Hfile (FileVariant.initial FileVariant.FileMissing) _ eq_refl)
      as (sid & lines & Hsid & Hout & Hin).
    injection Hsid as <-. exists lines. split; [exact Hout|exact Hin].
  - destruct (Htable (TableVariant.initial TableVariant.DbMissing) _ eq_refl)
      as (sid & lines & Hsid & Hout & Hin).
    injection Hsid as <-. exists lines. split; [exact Hout|exact Hin].
Defined.

Lemma create_then_tell_witness :
  FileVariant.calls
    (FileVariant.tellCoworkerTool "BOB" "ping"
       (FileVariant.after
          (FileVariant.createCoworkerTool "Bob" None "hi" Sample.caller
             Sample.first_session (FileVariant.initial FileVariant.FileMissing))))
  = [SessionPrompt (Some "ses_1"%string) "ping" None]
  /\
  TableVariant.calls
    (TableVariant.tellCoworkerTool "BOB" "ping"
       (TableVariant.after
          (TableVariant.createCoworkerTool "Bob" None "hi" Sample.caller
             Sample.first_session (TableVariant.initial TableVariant.DbMissing))))
  = [SessionPrompt (Some "ses_1"%string) "ping" None].
Proof.
  destruct (create_then_tell "Bob" "BOB" None "hi" "ping" Sample.caller
              Sample.first_session eq_refl) as [Hfile Htable].
  split.
  - destruct (Hfile (FileVariant.initial FileVariant.FileMissing) _ eq_refl)
      as (sid & st1 & -> & Hsid & Hrun).
    injection Hsid as <-. exact (f_equal FileVariant.calls Hrun).
  - destruct (Htable (TableVariant.initial TableVariant.DbMissing) _ eq_refl)
      as (sid & st1 & -> & Hsid & Hrun).
    injection Hsid as <-. exact (f_equal TableVariant.calls Hrun).
Defined.

Lemma file_records_are_write_once_witness :
  own_get "bob"
    (own (FileVariant.loadCoworkers
            (FileVariant.storageFile
               (FileVariant.run
                  [FileVariant.create_coworker "Alice" None "hi" Sample.caller
                     Sample.second_session;
                   FileVariant.create_coworker "BOB" None "again" Sample.caller
                     Sample.second_session;
                   FileVariant.tell_coworker "bob" "ping"]
                  (FileVariant.initial
                     (FileVariant.FileJson [("bob"%string, Sample.bob)]))))))
  = Some Sample.bob.
Proof.
  apply (file_records_are_write_once _
           (FileVariant.initial (FileVariant.FileJson [("bob"%string, Sample.bob)]))).
  reflexivity.
Defined.

Lemma table_records_are_write_once_witness :
  exists rows',
    TableVariant.getDb
      (TableVariant.db
         (TableVariant.after
            (TableVariant.exec
               (TableVariant.remove_coworker "Alice")
               (TableVariant.initial
                  (TableVariant.DbTable
                     [Sample.alice_row;
                      TableVariant.row_of_entry ("bob"%string, Sample.bob)])))))
    = Some rows' /\
    own_get "bob" (own (TableVariant.normalize_rows rows')) = Some Sample.bob.
Proof.
  apply (table_records_are_write_once
           (TableVariant.remove_coworker "Alice")
           (TableVariant.initial
              (TableVariant.DbTable
                 [Sample.alice_row;
                  TableVariant.row_of_entry ("bob"%string, Sample.bob)]))
           [Sample.alice_row; TableVariant.row_of_entry ("bob"%string, Sample.bob)]).
  - reflexivity.
  - reflexivity.
  - intros n [= <-]. vm_compute. discriminate.
Defined.

Lemma failures_change_nothing_witness :
  FileVariant.after
    (FileVariant.exec (FileVariant.tell_coworker "ghost" "hi")
       (FileVariant.initial FileVariant.FileMissing))
  = FileVariant.initial FileVariant.FileMissing
  /\
  TableVariant.activeSessions
    (TableVariant.after
       (TableVariant.exec
          (TableVariant.create_coworker "Bob" None "hi" Sample.caller Sample.no_session)
          (TableVariant.initial TableVariant.DbMissing)))
  = ∅.
Proof.
  destruct failures_change_nothing as [Hfile Htable]. split.
  - apply (Hfile (FileVariant.tell_coworker "ghost" "hi")
             (FileVariant.initial FileVariant.FileMissing) NotFound _ eq_refl).
    discriminate.
  - refine (proj1 (proj2 (Htable
      (TableVariant.create_coworker "Bob" None "hi" Sample.caller Sample.no_session)
      (TableVariant.initial TableVariant.DbMissing) UpstreamFailure _ eq_refl _))).
    discriminate.
Defined.

Lemma reserved_names_cannot_be_created_witness :
  (exists t,
      FileVariant.createCoworkerTool "Constructor" None "hi" Sample.caller
        Sample.first_session (FileVariant.initial FileVariant.FileMissing)
      = FileVariant.mkRun (Returned AlreadyExists t)
          (FileVariant.initial FileVariant.FileMissing) [])
  /\
  (exists t,
      TableVariant.createCoworkerTool "__PROTO__" None "hi" Sample.caller
        Sample.first_session (TableVariant.initial (TableVariant.DbTable []))
      = TableVariant.mkRun (Returned AlreadyExists t)
          (TableVariant.initial (TableVariant.DbTable [])) []).
Proof.
  split.
  - apply (reserved_names_cannot_be_created "Constructor" None "hi" Sample.caller
             Sample.first_session). left. reflexivity.
  - apply (proj2 (reserved_names_cannot_be_created "__PROTO__" None "hi" Sample.caller
                    Sample.first_session (or_intror eq_refl))
             (TableVariant.initial (TableVariant.DbTable [])) []).
    reflexivity.
Defined.

Lemma remove_frees_the_name_witness :
  let st1 :=
    TableVariant.after
      (TableVariant.removeCoworkerTool "Bob"
         (TableVariant.mkState
            (TableVariant.DbTable [TableVariant.row_of_entry ("bob"%string, Sample.bob)])
            {[ "ses_1"%string := "bob"%string ]}
            {[ "ses_1"%string := "ses_caller"%string ]})) in
  TableVariant.activeSessions st1 !! "ses_1"%string = None /\
  (exists t,
      TableVariant.outcome (TableVariant.tellCoworkerTool "Bob" "ping" st1)
      = Returned NotFound t) /\
  (exists t,
      TableVariant.outcome
        (TableVariant.createCoworkerTool "Bob" None "hi" Sample.caller
           Sample.second_session st1)
      = Returned Done t).
Proof.
  cbn zeta.
  destruct (remove_frees_the_name "Bob"
              (TableVariant.mkState
                 (TableVariant.DbTable
                    [TableVariant.row_of_entry ("bob"%string, Sample.bob)])
                 {[ "ses_1"%string := "bob"%string ]}
                 {[ "ses_1"%string := "ses_caller"%string ]})
              [TableVariant.row_of_entry ("bob"%string, Sample.bob)]
              Sample.bob eq_refl registry_keys_bob eq_refl)
    as (Hact & _ & Htell & Hcreate).
  - vm_compute. discriminate.
  - split; [exact Hact|]. split.
    + destruct (Htell "ping") as (t & Hout & _). by exists t.
    + exact (Hcreate None "hi" Sample.caller Sample.second_session "ses_2" eq_refl).
Defined.

Lemma remove_misses_other_spellings_witness :
  TableVariant.db
    (TableVariant.after
       (TableVariant.removeCoworkerTool "bob"
          (TableVariant.initial
             (TableVariant.DbTable
                [TableVariant.mkRow "Bob" "ses_1" "code" "2026-01-01" None]))))
  = TableVariant.DbTable [TableVariant.mkRow "Bob" "ses_1" "code" "2026-01-01" None]
  /\
  exists t,
    TableVariant.outcome
      (TableVariant.removeCoworkerTool "bob"
         (TableVariant.initial
            (TableVariant.DbTable
               [TableVariant.mkRow "Bob" "ses_1" "code" "2026-01-01" None])))
    = Returned Done t.
Proof.
  assert (Hrun := remove_misses_other_spellings "bob"
            (TableVariant.initial
               (TableVariant.DbTable
                  [TableVariant.mkRow "Bob" "ses_1" "code" "2026-01-01" None]))
            [TableVariant.mkRow "Bob" "ses_1" "code" "2026-01-01" None]
            (mkCoworker "ses_1" "code" "2026-01-01" None) eq_refl eq_refl).
  rewrite Hrun.
  - split; [reflexivity|]. by eexists.
  - intros r Hr. apply list_elem_of_singleton in Hr. subst r. vm_compute. discriminate.
Defined.

Lemma fresh_process_lists_idle_witness :
  (exists lines,
      FileVariant.outcome
        (FileVariant.listCoworkersTool
           (FileVariant.initial (FileVariant.FileJson [("bob"%string, Sample.bob)])))
      = Returned Done (Listing.newline_separated lines) /\
      Listing.line "bob" "code" "ses_1" "idle" ∈ lines)
  /\
  (exists lines,
      TableVariant.outcome
        (TableVariant.listCoworkersTool
           (TableVariant.initial (TableVariant.DbTable [Sample.alice_row])))
      = Returned Done (Listing.newline_separated lines) /\
      Listing.line "alice" "general" "ses_0" "idle" ∈ lines).
Proof.
  destruct fresh_process_lists_idle as [Hfile Htable]. split.
  - exact (Hfile (FileVariant.FileJson [("bob"%string, Sample.bob)]) "bob"%string
             Sample.bob eq_refl).
  - exact (Htable (TableVariant.DbTable [Sample.alice_row]) _ "alice"%string
             (TableVariant.coworker_of_row Sample.alice_row) eq_refl eq_refl).
Defined.

Lemma table_save_is_idempotent_witness :
  TableVariant.saveCoworkers
    (TableVariant.saveCoworkers [Sample.alice_row]
       (mkStorage None [("bob"%string, Sample.bob)]))
    (mkStorage None [("bob"%string, Sample.bob)])
  = TableVariant.saveCoworkers [Sample.alice_row]
      (mkStorage None [("bob"%string, Sample.bob)]).
Proof.
  apply (table_save_is_idempotent [Sample.alice_row]
           (mkStorage None [("bob"%string, Sample.bob)])).
  exact registry_keys_bob.
Defined.

Lemma load_takes_last_spelling_witness :
  own_get "bob"
    (own (FileVariant.loadCoworkers
            (FileVariant.FileJson
               [("Bob"%string, Sample.bob);
                ("BOB"%string, mkCoworker "ses_2" "code" "2026-01-02" None)])))
  = Some (mkCoworker "ses_2" "code" "2026-01-02" None)
  /\
  own_get "alice" (own (TableVariant.normalize_rows [Sample.alice_row]))
  = Some (TableVariant.coworker_of_row Sample.alice_row)
  /\
  is_Some (Spelling.last_spelled "bob" [("Bob"%string, Sample.bob)])
  /\
  Spelling.last_spelled "alice" [("Bob"%string, Sample.bob)] = None.
Proof.
  destruct load_takes_last_spelling as (Hfile & Htable & Hfound & Hnone).
  split; [|split; [|split]].
  - rewrite Hfile; [reflexivity|discriminate].
  - rewrite Htable; [reflexivity|discriminate].
  - apply (Hfound [("Bob"%string, Sample.bob)] ("Bob"%string, Sample.bob)).
    apply list_elem_of_here.
  - apply Hnone. intros e He. apply list_elem_of_singleton in He. subst e.
    vm_compute. discriminate.
Defined.

Lemma overlapping_creates_lose_a_record_witness :
  let rA :=
    Overlap.file_create_end empty_object "Alice" None Sample.caller Sample.first_session
      "ses_1" (FileVariant.initial FileVariant.FileMissing) in
  let rB :=
    Overlap.file_create_end empty_object "Bob" None Sample.caller Sample.second_session
      "ses_2" (FileVariant.after rA) in
  let final := FileVariant.loadCoworkers (FileVariant.storageFile (FileVariant.after rB)) in
  (exists t, FileVariant.outcome rA = Returned Done t) /\
  FileVariant.activeSessions (FileVariant.after rB) !! "ses_1"%string
    = Some (toLowerCase "Alice") /\
  own_get (toLowerCase "Alice") (own final) = None /\
  own_get (toLowerCase "Bob") (own final)
    = Some (mkCoworker "ses_2" (default "code"%string None)
              (clock Sample.second_session) (Some (sessionID Sample.caller))).
Proof.
  apply (overlapping_creates_lose_a_record "Alice" "Bob" None None Sample.caller
           Sample.caller Sample.first_session Sample.second_session "ses_1" "ses_2"
           (FileVariant.initial FileVariant.FileMissing) empty_object empty_object).
  - vm_compute. discriminate.
  - discriminate.
  - reflexivity.
  - reflexivity.
Defined.

Lemma overlapping_creates_keep_both_rows_witness :
  let rA :=
    Overlap.table_create_end empty_object "Alice" None Sample.caller Sample.first_session
      "ses_1" (TableVariant.initial (TableVariant.DbTable [])) in
  let rB :=
    Overlap.table_create_end empty_object "Bob" None Sample.caller Sample.second_session
      "ses_2" (TableVariant.after rA) in
  exists final,
    TableVariant.loadCoworkers (TableVariant.db (TableVariant.after rB)) = Some final /\
    own_get (toLowerCase "Alice") (own final)
      = Some (mkCoworker "ses_1" (default "general"%string None)
                (clock Sample.first_session) (or_absent (Some (sessionID Sample.caller)))) /\
    own_get (toLowerCase "Bob") (own final)
      = Some (mkCoworker "ses_2" (default "general"%string None)
                (clock Sample.second_session) (or_absent (Some (sessionID Sample.caller)))).
Proof.
  apply (overlapping_creates_keep_both_rows "Alice" "Bob" None None Sample.caller
           Sample.caller Sample.first_session Sample.second_session "ses_1" "ses_2"
           (TableVariant.initial (TableVariant.DbTable [])) [] empty_object empty_object).
  - vm_compute. discriminate.
  - reflexivity.
  - reflexivity.
  - reflexivity.
Defined.

Lemma storage_path_is_settled_once_witness :
  StoragePath.getStorageFile_calls (fun dir file => dir +:+ "/" +:+ file) None
    [None; Some "/home/u/.config/opencode"%string; None; Some "/elsewhere"%string]
  = ([None;
      Some "/home/u/.config/opencode/coworkers.json"%string;
      Some "/home/u/.config/opencode/coworkers.json"%string;
      Some "/home/u/.config/opencode/coworkers.json"%string],
     Some "/home/u/.config/opencode/coworkers.json"%string).
Proof.
  apply (storage_path_is_settled_once (fun dir file => dir +:+ "/" +:+ file) 1
           "/home/u/.config/opencode" [None; Some "/elsewhere"%string]).
  discriminate.
Defined.

(** *** What a create makes of a store with several spellings *)

(** X19.  A successful create of [src/index.ts] rewrites the whole file
    from the mapping it loaded: afterwards the file holds, under
    normalized and distinct keys, the records of that mapping and the new
    one, and nothing else; spellings that lost on loading are gone. *)
Theorem file_create_normalizes_store :
  forall (n : string) (a : option string) (p : string) (ctx : ToolContext)
         (svc : Service) (st : FileVariant.State) (t : string),
    FileVariant.outcome (FileVariant.createCoworkerTool n a p ctx svc st)
      = Returned Done t ->
    exists sid,
      created_id svc = Some sid /\
      let written :=
        file_records
          (FileVariant.storageFile
             (FileVariant.after (FileVariant.createCoworkerTool n a p ctx svc st))) in
      registry_keys written /\
      Permutation written
        (own (FileVariant.loadCoworkers (FileVariant.storageFile st))
           ++ [(toLowerCase n,
                mkCoworker sid (default "code"%string a) (clock svc)
                           (Some (sessionID ctx)))]).
Proof.
  intros n a p ctx svc st t Hdone.
  destruct (file_create_done _ _ _ _ _ _ _ Hdone) as (Hf & sid & Hid & _ & ->).
  exists sid. split; [done|]. cbn zeta.
  cbn [FileVariant.after FileVariant.storageFile FileVariant.saveCoworkers file_records].
  split; [auto with registry|].
  rewrite entries_perm, set_fresh; [done| |by eapply falsy_not_proto].
  by apply falsy_not_own.
Qed.

(** X20.  A successful create of the SQLite variant saves row by row and
    deletes nothing: a row stored under a spelling that is not normalized
    stays in the table, and the table now also has a row under the
    normalized name, for every old row and not only for the new
    coworker. *)
Theorem table_create_keeps_old_spellings :
  forall (n : string) (a : option string) (p : string) (ctx : ToolContext)
         (svc : Service) (st : TableVariant.State) (rows : list TableVariant.Row)
         (t : string),
    TableVariant.getDb (TableVariant.db st) = Some rows ->
    TableVariant.outcome (TableVariant.createCoworkerTool n a p ctx svc st)
      = Returned Done t ->
    exists rows',
      TableVariant.getDb
        (TableVariant.db
           (TableVariant.after (TableVariant.createCoworkerTool n a p ctx svc st)))
        = Some rows' /\
      (forall r, r ∈ rows ->
                 TableVariant.name r <> toLowerCase (TableVariant.name r) ->
                 r ∈ rows') /\
      (forall r, r ∈ rows ->
                 toLowerCase (TableVariant.name r) <> "__proto__"%string ->
                 exists r', r' ∈ rows' /\
                            TableVariant.name r' = toLowerCase (TableVariant.name r)).
Proof.
  intros n a p ctx svc st rows t Hdb Hdone.
  destruct (table_create_done _ _ _ _ _ _ _ Hdone)
    as (rows0 & sid & Hdb0 & Hf & Hid & _ & ->).
  rewrite Hdb in Hdb0. injection Hdb0 as <-.
  eexists. split; [reflexivity|].
  set (o' := set (TableVariant.normalize_rows rows) (toLowerCase n) _).
  assert (Hk : registry_keys (own o')) by (unfold o'; auto with registry).
  assert (Hne : toLowerCase n <> "__proto__"%string) by (by eapply falsy_not_proto).
  rewrite table_save by done.
  pose proof (registry_keys_entries _ Hk) as [_ Hks]. rewrite Forall_forall in Hks.
  split.
  - intros r Hr Hspelling. apply elem_of_app. left.
    apply list_elem_of_filter. split; [|done].
    intros Hin. apply Hspelling. symmetry. by apply (Hks _ Hin).
  - intros r Hr Hproto.
    assert (Hsome : is_Some (own_get (toLowerCase (TableVariant.name r)) (own o'))).
    { unfold o'. rewrite own_get_set by done.
      destruct (String.eqb _ _); [by eexists|].
      rewrite table_load_last_spelled by done.
      destruct (Spelling.last_spelled _ _) eqn:E; [by eexists|]. exfalso.
      apply (proj1 (last_spelled_None _ _) E
               (TableVariant.name r, TableVariant.coworker_of_row r)); [|done].
      unfold table_records.
      by apply (list_elem_of_fmap_2
                  (fun r => (TableVariant.name r, TableVariant.coworker_of_row r))). }
    destruct Hsome as [c Hc]. apply own_get_Some_elem in Hc.
    rewrite <- (entries_perm o') in Hc.
    exists (TableVariant.row_of_entry (toLowerCase (TableVariant.name r), c)).
    split; [|simpl; apply toLowerCase_idem].
    apply elem_of_app. right. by apply (list_elem_of_fmap_2 TableVariant.row_of_entry).
Qed.

Lemma file_create_normalizes_store_witness :
  exists sid,
    created_id Sample.first_session = Some sid /\
    let written :=
      file_records
        (FileVariant.storageFile
           (FileVariant.after
              (FileVariant.createCoworkerTool "Alice" None "hi" Sample.caller
                 Sample.first_session
                 (FileVariant.initial
                    (FileVariant.FileJson
                       [("Bob"%string, Sample.bob);
                        ("bob"%string, mkCoworker "ses_9" "code" "2026-01-09" None)]))))) in
    registry_keys written /\
    Permutation written
      (own (FileVariant.loadCoworkers
              (FileVariant.storageFile
                 (FileVariant.initial
                    (FileVariant.FileJson
                       [("Bob"%string, Sample.bob);
                        ("bob"%string, mkCoworker "ses_9" "code" "2026-01-09" None)]))))
         ++ [(toLowerCase "Alice",
              mkCoworker sid (default "code"%string None) (clock Sample.first_session)
                         (Some (sessionID Sample.caller)))]).
Proof.
  apply (file_create_normalizes_store "Alice" None "hi" Sample.caller
           Sample.first_session
           (FileVariant.initial
              (FileVariant.FileJson
                 [("Bob"%string, Sample.bob);
                  ("bob"%string, mkCoworker "ses_9" "code" "2026-01-09" None)]))
           _ eq_refl).
Defined.

Lemma table_create_keeps_old_spellings_witness :
  exists rows',
    TableVariant.getDb
      (TableVariant.db
         (TableVariant.after
            (TableVariant.createCoworkerTool "Alice" None "hi" Sample.caller
               Sample.first_session
               (TableVariant.initial
                  (TableVariant.DbTable
                     [TableVariant.mkRow "Bob" "ses_1" "code" "2026-01-01" None])))))
    = Some rows' /\
    TableVariant.mkRow "Bob" "ses_1" "code" "2026-01-01" None ∈ rows' /\
    exists r', r' ∈ rows' /\ TableVariant.name r' = "bob"%string.
Proof.
  destruct (table_create_keeps_old_spellings "Alice" None "hi" Sample.caller
              Sample.first_session
              (TableVariant.initial
                 (TableVariant.DbTable
                    [TableVariant.mkRow "Bob" "ses_1" "code" "2026-01-01" None]))
              [TableVariant.mkRow "Bob" "ses_1" "code" "2026-01-01" None]
              _ eq_refl eq_refl) as (rows' & Hdb & Hkept & Hcopy).
  exists rows'. split; [exact Hdb|]. split.
  - apply Hkept; [apply list_elem_of_here|]. vm_compute. discriminate.
  - apply (Hcopy (TableVariant.mkRow "Bob" "ses_1" "code" "2026-01-01" None));
      [apply list_elem_of_here|]. vm_compute. discriminate.
Defined.
